(** * A shallow embedding of the secured Express "Hello, World!" server

    The repository configures an Express application (rate limiter, security
    headers, CORS, body parsing, two routes, a not-found handler and a global
    error handler) and binds it to a plain listener and an optional TLS
    listener.  This development embeds the repository's own functions:

    - [middleware/rateLimiter.js]: [parseIntWithDefault], the limiter options,
      the rejection [handler] and the [keyGenerator];
    - [app.js]: the trust-proxy switch, the order of the stages, the routes,
      the 404 handler and the global error handler;
    - [config/security.js]: [parseAllowedOrigins];
    - [config/https.js]: [loadCertificates], [getHttpsOptions],
      [createSecureServer];
    - [server.js] and its second variant: start-up and [gracefulShutdown].

    JavaScript strings are sequences of UTF-16 code units; they are modelled
    as [list N].  [process.env] and the file system are finite maps. *)

From Stdlib Require Import ZArith NArith QArith List String Ascii Bool Lia.
From Stdlib Require Import Numbers.DecimalString.
From Stdlib Require Numbers.DecimalPos.
From stdpp Require Import base option list gmap strings.

Import ListNotations.
Local Open Scope Z_scope.
#[local] Set Warnings "-register-all".

(** ** JavaScript strings and the built-ins the code calls *)

Module JS.

(** A JavaScript string: its UTF-16 code units. *)
Abbreviation jsstring := (list N).

(** A string literal of the source (ASCII). *)
Definition lit (s : string) : jsstring :=
  List.map N_of_ascii (list_ascii_of_string s).

Definition jseqb (a b : jsstring) : bool := bool_decide (a = b).

(** ECMAScript WhiteSpace and LineTerminator code points, the set that
    [String.prototype.trim] and [parseInt] strip:
    TAB, LF, VT, FF, CR, SP, NBSP, U+1680, U+2000..U+200A, U+2028, U+2029,
    U+202F, U+205F, U+3000, U+FEFF. *)
Definition is_white_space (c : N) : bool :=
  ((9 <=? c) && (c <=? 13) || (c =? 32) || (c =? 160) || (c =? 5760)
   || (8192 <=? c) && (c <=? 8202) || (c =? 8232) || (c =? 8233)
   || (c =? 8239) || (c =? 8287) || (c =? 12288) || (c =? 65279))%N.

Fixpoint trimStart (s : jsstring) : jsstring :=
  match s with
  | c :: s' => if is_white_space c then trimStart s' else s
  | [] => []
  end.

Fixpoint trimEnd (s : jsstring) : jsstring :=
  match s with
  | [] => []
  | c :: s' =>
      match trimEnd s' with
      | [] => if is_white_space c then [] else [c]
      | r => c :: r
      end
  end.

(** [String.prototype.trim]. *)
Definition trim (s : jsstring) : jsstring := trimEnd (trimStart s).

(** [s.split(sep)] for a one-unit separator: the pieces between the
    separators, empty pieces kept. *)
Fixpoint split (sep : N) (s : jsstring) : list jsstring :=
  match s with
  | [] => [[]]
  | c :: s' =>
      if (c =? sep)%N then [] :: split sep s'
      else match split sep s' with
           | w :: ws => (c :: w) :: ws
           | [] => [[c]]
           end
  end.

Fixpoint startsWith (s p : jsstring) : bool :=
  match p, s with
  | [], _ => true
  | a :: p', b :: s' => (a =? b)%N && startsWith s' p'
  | _ :: _, [] => false
  end.

(** [s.includes(p)]. *)
Fixpoint includes (s p : jsstring) : bool :=
  startsWith s p ||
  match s with
  | [] => false
  | _ :: s' => includes s' p
  end.

(** Decimal digits. *)
Definition is_digit (c : N) : bool := ((48 <=? c) && (c <=? 57))%N.
Definition digit_value (c : N) : Z := Z.of_N c - 48.

(** The longest prefix of decimal digits of [s], read left to right into
    an accumulator; [seen] records whether a digit was consumed. *)
Fixpoint digits_prefix (s : jsstring) (acc : Z) (seen : bool) : option Z :=
  match s with
  | c :: s' =>
      if is_digit c then digits_prefix s' (10 * acc + digit_value c) true
      else if seen then Some acc else None
  | [] => if seen then Some acc else None
  end.

(** [parseInt(s, 10)]: leading white space is skipped, one sign is read,
    then the longest run of decimal digits; anything after it is ignored.
    [None] is NaN.  The mathematical value of the digits is kept exactly;
    the Number that JavaScript returns is this value rounded to a double,
    which is the same integer below 2^53, and since rounding is monotone a
    comparison of the result with a constant below 2^53 is decided the same
    way on both.  Above 2^53 the two differ ('9007199254740993' is read as
    9007199254740992): a statement that names the value read is made for a
    [safe_integer] only. *)
Definition parseInt (s : jsstring) : option Z :=
  match trimStart s with
  | 45%N :: r => option_map Z.opp (digits_prefix r 0 false)
  | 43%N :: r => digits_prefix r 0 false
  | r => digits_prefix r 0 false
  end.

(** [String(n)] for an integer Number below 10^21 in absolute value: its
    decimal digits.  From 10^21 on JavaScript prints an exponent ('1e+21'),
    which this function does not: a statement that reads the digits back is
    made for a [safe_integer] only. *)
Definition show (z : Z) : jsstring :=
  lit (NilZero.string_of_int (Z.to_int z)).

(** [Number.MAX_SAFE_INTEGER], 2^53 - 1. *)
Definition MAX_SAFE_INTEGER : Z := 9007199254740991.

(** [Number.isSafeInteger(z)]: the integers that a Number holds exactly and
    that are the only integer rounded to it; [parseInt] reads their digits
    to that very Number, and [String] prints them in plain decimal. *)
Definition safe_integer (z : Z) : Prop :=
  - MAX_SAFE_INTEGER <= z <= MAX_SAFE_INTEGER.

(** Truthiness of an optional string: [undefined] and [''] are falsy. *)
Definition truthy (o : option jsstring) : bool :=
  match o with
  | Some (_ :: _) => true
  | _ => false
  end.

(** [a || b] where [a] may be undefined and [b] is a string. *)
Definition or_else (a : option jsstring) (b : jsstring) : jsstring :=
  match a with
  | Some (c :: s) => c :: s
  | _ => b
  end.

(** Interpolation of a possibly undefined string in a template literal. *)
Definition show_opt (o : option jsstring) : jsstring :=
  match o with
  | Some s => s
  | None => lit "undefined"
  end.

End JS.

Import JS.

(** [process.env]: variable names to values. *)
Abbreviation environment := (gmap string (list N)).

(** [process.env.X === v]. *)
Definition env_is (env : environment) (name : string) (v : string) : bool :=
  bool_decide (env !! name = Some (lit v)).

(** ** The data the handlers exchange *)

(** JSON values as the handlers build them. *)
Inductive json :=
| JNum (z : Z)
| JReal (q : Q)
| JStr (s : jsstring)
| JObj (fields : list (string * json)).

Inductive method := GET | HEAD | POST | PUT | DELETE | PATCH | OPTIONS | OTHER.

Definition method_eqb (a b : method) : bool :=
  match a, b with
  | GET, GET | HEAD, HEAD | POST, POST | PUT, PUT | DELETE, DELETE
  | PATCH, PATCH | OPTIONS, OPTIONS | OTHER, OTHER => true
  | _, _ => false
  end.

(** The request object as Express hands it to a middleware: the properties
    the repository's handlers read.  [ip] is Express's [req.ip],
    [remoteAddress] is [req.socket.remoteAddress], [path] is the pathname
    the router matches routes against. *)
Record request := {
  req_method : method;
  originalUrl : jsstring;
  url : jsstring;
  path : jsstring;
  ip : option jsstring;
  remoteAddress : option jsstring
}.

Inductive body :=
| Text (s : jsstring)
| Json (j : json)
| Empty.

(** What a handler sends: [res.status(..)], the media type given to
    [res.type(..)] ([res.json] sets application/json), and the payload. *)
Record response := {
  status : Z;
  ctype : option jsstring;
  rbody : body
}.

Inductive level := LOG | WARN | ERROR.

Inductive listener := Plain | Tls.

(** Observable effects, in program order. *)
Inductive event :=
| Console (l : level) (text : jsstring)
| ExistsSync (p : jsstring)
| ReadFileSync (p : jsstring)
| Listen (s : listener) (port : jsstring)
| Close (s : listener)
| SetTimeout (ms : Z)
| Exit (code : Z).

(** [a || b] on two strings. *)
Definition or_str (a b : jsstring) : jsstring :=
  match a with
  | [] => b
  | _ :: _ => a
  end.

(** [a || b] where [a] is a Number or undefined and [b] a Number:
    [undefined] and [0] are falsy. *)
Definition or_num (a : option Z) (b : Z) : Z :=
  match a with
  | Some z => if z =? 0 then b else z
  | None => b
  end.

(** ** middleware/rateLimiter.js *)

Module RateLimiter.

Definition DEFAULT_WINDOW_MS : Z := 15 * 60 * 1000.
Definition DEFAULT_MAX_REQUESTS : Z := 100.
Definition DEFAULT_STRICT_MAX_REQUESTS : Z := 5.

(** [parseIntWithDefault(envValue, defaultValue)]; [None] is [undefined]
    (an environment value is a string or undefined). *)
Definition parseIntWithDefault (envValue : option jsstring) (defaultValue : Z) : Z :=
  match envValue with
  | None => defaultValue
  | Some [] => defaultValue
  | Some s =>
      match parseInt s with
      | None => defaultValue
      | Some parsed => if 0 <? parsed then parsed else defaultValue
      end
  end.


(** The options object given to [rateLimit]. *)
Record options := {
  windowMs : Z;
  limit : Z;
  standardHeaders : string;
  legacyHeaders : bool;
  message : json;
  skipSuccessfulRequests : bool;
  skipFailedRequests : bool;
  requestPropertyName : string
}.

Definition too_many (text : jsstring) : json :=
  JObj [("status", JNum 429);
        ("error", JStr (lit "Too Many Requests"));
        ("message", JStr text)]%string.

(** The options of [rateLimiter]. *)
Definition rateLimiter_options (env : environment) : options := {|
  windowMs := parseIntWithDefault (env !! "RATE_LIMIT_WINDOW_MS"%string) DEFAULT_WINDOW_MS;
  limit := parseIntWithDefault (env !! "RATE_LIMIT_MAX"%string) DEFAULT_MAX_REQUESTS;
  standardHeaders := "draft-8";
  legacyHeaders := false;
  message := too_many (lit "You have exceeded the rate limit. Please try again later.");
  skipSuccessfulRequests := false;
  skipFailedRequests := false;
  requestPropertyName := "rateLimit"
|}.

(** The options of [strictRateLimiter]. *)
Definition strictRateLimiter_options : options := {|
  windowMs := DEFAULT_WINDOW_MS;
  limit := DEFAULT_STRICT_MAX_REQUESTS;
  standardHeaders := "draft-8";
  legacyHeaders := false;
  message := too_many (lit "Too many authentication attempts, please try again later.");
  skipSuccessfulRequests := false;
  skipFailedRequests := false;
  requestPropertyName := "rateLimit"
|}.

(** [createRateLimiter(options)]: each destructured property with its
    default ([None] is a property left out). *)
Definition createRateLimiter_options (w l : option Z) (m : option jsstring)
    (ss sf : option bool) : options := {|
  windowMs := default DEFAULT_WINDOW_MS w;
  limit := default DEFAULT_MAX_REQUESTS l;
  standardHeaders := "draft-8";
  legacyHeaders := false;
  message := too_many (default (lit "Too many requests, please try again later.") m);
  skipSuccessfulRequests := default false ss;
  skipFailedRequests := default false sf;
  requestPropertyName := "rateLimit"
|}.

(** [keyGenerator]: [req.ip || req.socket.remoteAddress || 'unknown']. *)
Definition keyGenerator (req : request) : jsstring :=
  or_else (ip req) (or_else (remoteAddress req) (lit "unknown")).

(** The text a rejection handler logs; [tag] and [tail] are the parts in
    which the three handlers differ. *)
Definition exceeded_text (tag tail : jsstring) (req : request) (opts : options) : jsstring :=
  let clientIP := or_else (ip req) (or_else (remoteAddress req) (lit "unknown")) in
  let requestPath := or_str (originalUrl req) (or_str (url req) (lit "/")) in
  tag ++ lit " - IP: " ++ clientIP ++ lit ", Path: " ++ requestPath ++
  lit ", Limit: " ++ show (limit opts) ++
  lit ", Window: " ++ show (windowMs opts) ++ lit "ms" ++ tail.

Definition reject (text : jsstring) (opts : options) : list event * response :=
  ([Console WARN text],
   {| status := 429; ctype := Some (lit "application/json"); rbody := Json (message opts) |}).

(** [handler] of [rateLimiter]. *)
Definition handler (req : request) (opts : options) : list event * response :=
  reject (exceeded_text (lit "[Rate Limit] Exceeded") [] req opts) opts.

(** [handler] of [strictRateLimiter]. *)
Definition strict_handler (req : request) (opts : options) : list event * response :=
  reject (exceeded_text (lit "[Strict Rate Limit] EXCEEDED")
            (lit " - Potential brute force attempt") req opts) opts.

(** [handler] of a limiter made by [createRateLimiter]. *)
Definition custom_handler (req : request) (opts : options) : list event * response :=
  reject (exceeded_text (lit "[Custom Rate Limit] Exceeded") [] req opts) opts.

(** The middleware that express-rate-limit builds from the options: it
    increments the counter stored under the request's key and hands the
    request to [handler] when the count of the current window, this request
    included, exceeds [limit]; otherwise the next stage runs ([None]).
    [totalHits] is the count the store returns for a key. *)
Definition rateLimit (opts : options)
    (h : request -> options -> list event * response)
    (totalHits : jsstring -> Z) (req : request) : option (list event * response) :=
  if limit opts <? totalHits (keyGenerator req) then Some (h req opts) else None.

End RateLimiter.

(** ** config/security.js *)

Module Security.

Definition default_origins : list jsstring :=
  [lit "http://localhost:3000"; lit "http://localhost:8080"].

(** [parseAllowedOrigins()]: [if (process.env.ALLOWED_ORIGINS)] holds for a
    defined, non-empty string. *)
Definition parseAllowedOrigins (env : environment) : list jsstring :=
  match env !! "ALLOWED_ORIGINS"%string with
  | Some (c :: s) =>
      List.filter (fun origin => (0 <? Z.of_nat (List.length origin)))
        (List.map (fun origin => trim origin) (split 44 (c :: s)))
  | _ => default_origins
  end.

(** [corsOptions]. *)
Record cors_options := {
  origin : list jsstring;
  methods : list method;
  allowedHeaders : list jsstring;
  credentials : bool;
  maxAge : Z;
  optionsSuccessStatus : Z
}.

Definition corsOptions (env : environment) : cors_options := {|
  origin := parseAllowedOrigins env;
  methods := [GET; POST; PUT; DELETE; PATCH; OPTIONS];
  allowedHeaders := [lit "Content-Type"; lit "Authorization"; lit "X-Requested-With"];
  credentials := true;
  maxAge := 86400;
  optionsSuccessStatus := 204
|}.

(** The cors middleware's test of a request's Origin against a whitelist
    given as an array of strings: some entry equals it. *)
Definition isOriginAllowed (o : jsstring) (allowed : list jsstring) : bool :=
  existsb (jseqb o) allowed.

(** [getCorsOptions()], called when the environment is [now]; the
    [corsOptions] it spreads were built when the module was loaded, under
    [loaded]. *)
Definition getCorsOptions (loaded now : environment) : cors_options :=
  let base := corsOptions loaded in
  {| origin := parseAllowedOrigins now;
     methods := methods base;
     allowedHeaders := allowedHeaders base;
     credentials := credentials base;
     maxAge := maxAge base;
     optionsSuccessStatus := optionsSuccessStatus base |}.

End Security.

(** ** app.js *)

Module App.

Import RateLimiter.

(** [if (process.env.TRUST_PROXY === 'true') app.set('trust proxy', 1)]:
    the hop count when the setting is made. *)
Definition trust_proxy (env : environment) : option nat :=
  if env_is env "TRUST_PROXY" "true" then Some 1%nat else None.

(** What the transport knows of a request's sender: the address that the
    framework reads from the X-Forwarded-For header ([None] when the
    header is absent), and the address of the socket's peer. *)
Record connection := {
  forwarded_for : option jsstring;
  socket_address : option jsstring
}.

(** Express's [req.ip] getter (framework code): the socket's address unless
    'trust proxy' is set; with it set, the forwarded address when the
    header carries one. *)
Definition express_ip (trust : option nat) (c : connection) : option jsstring :=
  match trust, forwarded_for c with
  | Some _, Some a => Some a
  | _, _ => socket_address c
  end.

(** The request object of a request line [m target] arriving on [c];
    [pathname] is the framework's parse of the target. *)
Definition express_request (env : environment) (c : connection) (m : method)
    (target pathname : jsstring) : request := {|
  req_method := m;
  originalUrl := target;
  url := target;
  path := pathname;
  ip := express_ip (trust_proxy env) c;
  remoteAddress := socket_address c
|}.

(** An error object as the global error handler reads it. *)
Record http_error := {
  err_status : option Z;
  err_statusCode : option Z;
  err_message : option jsstring;
  err_stack : option jsstring
}.

(** What the stages that are library code contribute to one request: the
    limiter's store, the outcome of the two body parsers (the error each
    raises, e.g. 413 for a body over the 10kb limit), and the clock. *)
Record context := {
  totalHits : jsstring -> Z;
  json_error : option http_error;
  urlencoded_error : option http_error;
  now_iso : jsstring;
  uptime : Q
}.

(** [app.get('/')]. *)
Definition root_handler : response :=
  {| status := 200; ctype := Some (lit "text/plain"); rbody := Text (lit "Hello, World!" ++ [10%N]) |}.

(** [app.get('/health')]. *)
Definition health_handler (ctx : context) : response :=
  {| status := 200; ctype := Some (lit "application/json");
     rbody := Json (JObj [("status", JStr (lit "healthy"));
                          ("timestamp", JStr (now_iso ctx));
                          ("uptime", JReal (uptime ctx))]%string) |}.

(** The 404 handler. *)
Definition not_found (req : request) : response :=
  {| status := 404; ctype := Some (lit "application/json");
     rbody := Json (JObj [("status", JNum 404);
                          ("error", JStr (lit "Not Found"));
                          ("message", JStr (lit "The requested resource could not be found"));
                          ("path", JStr (originalUrl req))]%string) |}.

Definition generic_message : jsstring := lit "An unexpected error occurred".

(** The global error handler: what it logs, and the status and the body that
    it hands to [res.status(statusCode).json(errorResponse)].  Whether Node
    sends them is [error_handler_run] below. *)
Definition error_handler (env : environment) (err : http_error) : list event * response :=
  let statusCode := or_num (err_status err) (or_num (err_statusCode err) 500) in
  let isProduction := env_is env "NODE_ENV" "production" in
  let errorResponse :=
    [("status", JNum statusCode);
     ("error", JStr (if (statusCode =? 500)%Z then lit "Internal Server Error" else lit "Error"));
     ("message", JStr (if isProduction && (statusCode =? 500)%Z
                       then generic_message
                       else or_else (err_message err) generic_message))]%string in
  let errorResponse :=
    match err_stack err with
    | Some (c :: s) =>
        if negb isProduction then errorResponse ++ [("stack"%string, JStr (c :: s))]
        else errorResponse
    | _ => errorResponse
    end in
  ([Console ERROR (lit "[Error] " ++ show_opt (err_message err));
    Console ERROR (show_opt (err_stack err))],
   {| status := statusCode; ctype := Some (lit "application/json");
      rbody := Json (JObj errorResponse) |}).

(** The status codes that Node's [writeHead] accepts; for any other it
    throws ERR_HTTP_INVALID_STATUS_CODE. *)
Definition valid_status (code : Z) : bool := (100 <=? code) && (code <=? 999).

(** The global error handler as it runs: its two log lines, and the
    response that [res.status(statusCode).json(errorResponse)] sends.
    [None]: the status is one that Node refuses, the call throws out of
    the handler and nothing of [errorResponse] is sent (the framework then
    answers in the handler's place). *)
Definition error_handler_run (env : environment) (err : http_error)
  : list event * option response :=
  let '(logged, resp) := error_handler env err in
  (logged, if valid_status (status resp) then Some resp else None).

Inductive route := Root | Health.

(** The routes, in the order of their registration. *)
Definition routes : list (method * jsstring * route) :=
  [(GET, lit "/", Root); (GET, lit "/health", Health)].

Definition lower (c : N) : N :=
  if ((65 <=? c) && (c <=? 90))%N then (c + 32)%N else c.

Definition strip_slash (s : jsstring) : jsstring :=
  match rev s with
  | 47%N :: r => rev r
  | _ => s
  end.

(** The router's default matching of a pathname against a route's path:
    letter case is ignored and one trailing slash is optional. *)
Definition path_matches (r p : jsstring) : bool :=
  jseqb (List.map lower (strip_slash p)) (List.map lower (strip_slash r)).

(** A route registered with [app.get] also answers HEAD. *)
Definition handles (rm m : method) : bool :=
  method_eqb rm m || (method_eqb rm GET && method_eqb m HEAD).

Definition find_route (req : request) : option route :=
  option_map snd
    (List.find (fun r => handles (fst (fst r)) (req_method req)
                         && path_matches (snd (fst r)) (path req)) routes).

(** The cors middleware answers a preflight itself (preflightContinue is
    not set): the configured success status and no body. *)
Definition preflight (env : environment) : response :=
  {| status := Security.optionsSuccessStatus (Security.corsOptions env);
     ctype := None; rbody := Empty |}.

(** The application: the stages in the order of their [app.use] calls.
    helmet only adds response headers, which [response] does not carry. *)
Definition app (env : environment) (ctx : context) (req : request) : list event * response :=
  match rateLimit (rateLimiter_options env) handler (totalHits ctx) req with
  | Some rejected => rejected
  | None =>
      if method_eqb (req_method req) OPTIONS then ([], preflight env)
      else
        match json_error ctx with
        | Some err => error_handler env err
        | None =>
            match urlencoded_error ctx with
            | Some err => error_handler env err
            | None =>
                match find_route req with
                | Some Root => ([], root_handler)
                | Some Health => ([], health_handler ctx)
                | None => ([], not_found req)
                end
            end
        end
  end.

End App.

(** ** Effects of the start-up code: a trace and an exception *)

(** A Node.js error: its message and, for system errors, its code. *)
Record sys_error := {
  emessage : jsstring;
  ecode : option jsstring
}.

(** [new Error(msg)]. *)
Definition Error (msg : jsstring) : sys_error :=
  {| emessage := msg; ecode := None |}.

(** A computation: the events it performed, and its value or the exception
    it threw. *)
Definition M (A : Type) : Type := list event * (sys_error + A).

#[export] Instance M_ret : MRet M := fun A a => ([], inr a).

#[export] Instance M_bind : MBind M := fun A B f m =>
  match m with
  | (t, inl e) => (t, inl e)
  | (t, inr a) => let '(t', r) := f a in (t ++ t', r)
  end.

Definition throw {A : Type} (e : sys_error) : M A := ([], inl e).

Definition emit (e : event) : M unit := ([e], inr tt).

(** [try { m } catch (error) { h error }]. *)
Definition try_catch {A : Type} (m : M A) (h : sys_error -> M A) : M A :=
  match m with
  | (t, inl e) => let '(t', r) := h e in (t ++ t', r)
  | (t, inr a) => (t, inr a)
  end.

Definition trace {A : Type} (m : M A) : list event := fst m.
Definition outcome {A : Type} (m : M A) : sys_error + A := snd m.

(** A file as [fs] sees it: readable with its bytes, or present but failing
    to be read (a directory, no permission). *)
Inductive file :=
| Readable (bytes : list N)
| Unreadable (e : sys_error).

(** What the process finds when it starts. *)
Record world := {
  w_env : environment;
  w_fs : gmap (list N) file;
  (** [path.resolve], against the working directory *)
  w_resolve : jsstring -> jsstring;
  (** the error with which [https.createServer] refuses a key and a
      certificate, if it does *)
  w_tls_refuses : list N -> list N -> option sys_error;
  (** the error that the plain server's [listen] throws for a port, if it
      does (a port out of range) *)
  w_listen_refuses : jsstring -> option sys_error
}.

(** [fs.existsSync]. *)
Definition existsSync (w : world) (p : jsstring) : M bool :=
  emit (ExistsSync p);;
  mret (bool_decide (is_Some (w_fs w !! p))).

(** [fs.readFileSync]. *)
Definition readFileSync (w : world) (p : jsstring) : M (list N) :=
  emit (ReadFileSync p);;
  match w_fs w !! p with
  | Some (Readable bytes) => mret bytes
  | Some (Unreadable e) => throw e
  | None => throw {| emessage := lit "ENOENT: no such file or directory, open '" ++ p ++ lit "'";
                     ecode := Some (lit "ENOENT") |}
  end.

(** ** config/https.js *)

Module Https.

Definition DEFAULT_KEY_PATH : jsstring := lit "./certs/server.key".
Definition DEFAULT_CERT_PATH : jsstring := lit "./certs/server.cert".
Definition DEFAULT_HTTPS_PORT : Z := 443.
Definition MIN_TLS_VERSION : jsstring := lit "TLSv1.2".

Record certificates := {
  key : list N;
  cert : list N
}.

Definition key_not_found : sys_error :=
  Error (lit "SSL private key file not found. " ++
         lit "Please ensure the file exists at the configured path. " ++
         lit "Set SSL_KEY_PATH environment variable or place key at " ++ DEFAULT_KEY_PATH).

Definition cert_not_found : sys_error :=
  Error (lit "SSL certificate file not found. " ++
         lit "Please ensure the file exists at the configured path. " ++
         lit "Set SSL_CERT_PATH environment variable or place certificate at " ++ DEFAULT_CERT_PATH).

(** The [switch (error.code)] of [loadCertificates]'s catch block. *)
Definition describe (error : sys_error) : jsstring :=
  lit "Failed to load SSL certificates: " ++
  match ecode error with
  | Some c =>
      if jseqb c (lit "ENOENT") then
        lit "Certificate file not found. Please check SSL_KEY_PATH and SSL_CERT_PATH environment variables."
      else if jseqb c (lit "EACCES") then
        lit "Permission denied when reading certificate files. Please check file permissions."
      else if jseqb c (lit "EISDIR") then
        lit "Certificate path points to a directory instead of a file."
      else emessage error
  | None => emessage error
  end.

(** The try block of [loadCertificates]. *)
Definition read_certificates (w : world) (resolvedKeyPath resolvedCertPath : jsstring)
    : M certificates :=
  keyExists ← existsSync w resolvedKeyPath;
  if negb keyExists then throw key_not_found
  else
    certExists ← existsSync w resolvedCertPath;
    if negb certExists then throw cert_not_found
    else
      key ← readFileSync w resolvedKeyPath;
      cert ← readFileSync w resolvedCertPath;
      if (List.length key =? 0)%nat then
        throw (Error (lit "SSL private key file is empty"))
      else if (List.length cert =? 0)%nat then
        throw (Error (lit "SSL certificate file is empty"))
      else mret {| key := key; cert := cert |}.

(** The catch block of [loadCertificates]. *)
Definition rethrow (error : sys_error) : M certificates :=
  if includes (emessage error) (lit "SSL ") then throw error
  else throw (Error (describe error)).

(** [loadCertificates()]. *)
Definition loadCertificates (w : world) : M certificates :=
  let keyPath := or_else (w_env w !! "SSL_KEY_PATH"%string) DEFAULT_KEY_PATH in
  let certPath := or_else (w_env w !! "SSL_CERT_PATH"%string) DEFAULT_CERT_PATH in
  let resolvedKeyPath := w_resolve w keyPath in
  let resolvedCertPath := w_resolve w certPath in
  try_catch (read_certificates w resolvedKeyPath resolvedCertPath) rethrow.

Record https_options := {
  opt_key : list N;
  opt_cert : list N;
  minVersion : jsstring
}.

(** [getHttpsOptions()]. *)
Definition getHttpsOptions (w : world) : M https_options :=
  certificates ← loadCertificates w;
  mret {| opt_key := key certificates; opt_cert := cert certificates;
          minVersion := MIN_TLS_VERSION |}.

(** The server object that [createSecureServer] returns. *)
Record server := {
  srv_options : https_options;
  srv_port : Z
}.

(** [https.createServer(httpsOptions, app)]. *)
Definition https_createServer (w : world) (o : https_options) (p : Z) : M server :=
  match w_tls_refuses w (opt_key o) (opt_cert o) with
  | Some e => throw e
  | None => mret {| srv_options := o; srv_port := p |}
  end.

(** The [port] argument: left out, a string (an environment value) or an
    integer Number. *)
Inductive port_arg :=
| PortUndefined
| PortString (s : jsstring)
| PortNumber (z : Z).

(** [String(port)] after the default parameter value is applied. *)
Definition port_text (port : port_arg) : jsstring :=
  match port with
  | PortUndefined => show DEFAULT_HTTPS_PORT
  | PortString s => s
  | PortNumber z => show z
  end.

Definition invalid_port (port : port_arg) : sys_error :=
  Error (lit "Invalid port number: " ++ port_text port ++
         lit ". Port must be between 0 and 65535.").

(** [createSecureServer(app, port)].  The two [server.on] calls register
    listeners for later events and perform nothing at this point. *)
Definition createSecureServer (w : world) (port : port_arg) : M server :=
  match parseInt (port_text port) with
  | None => throw (invalid_port port)
  | Some portNumber =>
      if (portNumber <? 0) || (65535 <? portNumber) then throw (invalid_port port)
      else
        emit (Console LOG (lit "Initializing HTTPS server..."));;
        try_catch
          (httpsOptions ← getHttpsOptions w;
           server ← https_createServer w httpsOptions portNumber;
           emit (Listen Tls (show portNumber));;
           mret server)
          (fun error =>
             emit (Console ERROR (lit "Failed to create HTTPS server: " ++ emessage error));;
             throw error)
  end.

(** The listener that [createSecureServer] registers for the server's
    'error' event. *)
Definition on_server_error (portNumber : Z) (error : sys_error) : list event :=
  if bool_decide (ecode error = Some (lit "EADDRINUSE")) then
    [Console ERROR (lit "HTTPS Server Error: Port " ++ show portNumber ++
                    lit " is already in use")]
  else if bool_decide (ecode error = Some (lit "EACCES")) then
    [Console ERROR (lit "HTTPS Server Error: Permission denied for port " ++
                    show portNumber ++ lit ". " ++
                    (if portNumber <? 1024
                     then lit "Ports below 1024 require elevated privileges."
                     else []))]
  else
    [Console ERROR (lit "HTTPS Server Error: " ++ emessage error)].

End Https.

(** ** server.js *)

(** A callback that the event loop runs after a signal: a listener reports
    closed (with the error [close] passes on, if any), or the timer fires. *)
Inductive callback :=
| Closed (s : listener) (err : option sys_error)
| Timeout.

Module Server.

Import Https.

(** [process.env.PORT || 3000], as the text of the string or the Number. *)
Definition PORT (w : world) : jsstring :=
  or_else (w_env w !! "PORT"%string) (show 3000).

(** [process.env.HTTPS_PORT || 443]. *)
Definition HTTPS_PORT (w : world) : port_arg :=
  match w_env w !! "HTTPS_PORT"%string with
  | Some (c :: s) => PortString (c :: s)
  | _ => PortNumber 443
  end.

Definition ENABLE_HTTPS (w : world) : bool :=
  env_is (w_env w) "ENABLE_HTTPS" "true".

Definition log (text : jsstring) : M unit := emit (Console LOG text).
Definition error (text : jsstring) : M unit := emit (Console ERROR text).

Definition not_production (w : world) : bool :=
  negb (env_is (w_env w) "NODE_ENV" "production").

(** [app.listen(PORT, ...)]. *)
Definition listen_plain (w : world) (port : jsstring) : M unit :=
  match w_listen_refuses w port with
  | Some e => throw e
  | None => emit (Listen Plain port)
  end.

(** The catch block of the HTTPS start-up. *)
Definition https_failed (e : sys_error) : M (option server) :=
  error (lit "Failed to start HTTPS server: " ++ emessage e);;
  error [];;
  error (lit "Troubleshooting steps:");;
  error (lit "1. Ensure SSL certificate files exist at configured paths");;
  error (lit "2. Verify SSL_KEY_PATH and SSL_CERT_PATH environment variables");;
  error (lit "3. Check file permissions on certificate files");;
  error (lit "4. For development, generate self-signed certificates");;
  error [];;
  error (lit "HTTP server will continue running without HTTPS.");;
  error (lit "Set ENABLE_HTTPS=false to suppress this message.");;
  mret None.

(** The conditional HTTPS start-up; its value is [httpsServer]. *)
Definition start_https (w : world) : M (option server) :=
  if ENABLE_HTTPS w then
    try_catch
      (httpsServer ← createSecureServer w (HTTPS_PORT w);
       log (lit "HTTPS Server running on port " ++ port_text (HTTPS_PORT w));;
       log (lit "TLS encryption enabled with minimum TLS 1.2");;
       (if not_production w then
          log (lit "Secure access: https://localhost:" ++ port_text (HTTPS_PORT w) ++ lit "/");;
          log (lit "Note: Browser may show certificate warning for self-signed certs")
        else mret tt);;
       mret (Some httpsServer))
      https_failed
  else
    log (lit "HTTPS disabled. Set ENABLE_HTTPS=true to enable secure server.");;
    mret None.

Definition rule : jsstring := List.repeat 61%N 60.
Definition tick (text : string) : jsstring := lit "  " ++ [10003%N] ++ lit " " ++ lit text.

(** The start-up summary. *)
Definition summary (w : world) : M unit :=
  log [];;
  log rule;;
  log (lit "Server Startup Summary");;
  log rule;;
  log (lit "HTTP Port:      " ++ PORT w);;
  log (lit "HTTPS Port:     " ++ port_text (HTTPS_PORT w) ++
       (if ENABLE_HTTPS w then [] else lit " (disabled)"));;
  log (lit "HTTPS Enabled:  " ++ (if ENABLE_HTTPS w then lit "true" else lit "false"));;
  log (lit "Environment:    " ++ or_else (w_env w !! "NODE_ENV"%string) (lit "development"));;
  log (lit "Trust Proxy:    " ++
       (if env_is (w_env w) "TRUST_PROXY" "true" then lit "enabled" else lit "disabled"));;
  log rule;;
  log [];;
  log (lit "Security features active:");;
  log (tick "Rate limiting (express-rate-limit)");;
  log (tick "Security headers (helmet.js)");;
  log (tick "CORS policy (cors)");;
  log (tick "Input validation (express-validator)");;
  log (tick "Body parsing with size limits");;
  (if ENABLE_HTTPS w then log (tick "HTTPS/TLS encryption") else mret tt);;
  log [];;
  log (lit "Server is ready to accept requests.");;
  log (lit "Press Ctrl+C to stop.");;
  log [].

(** The module's top level, in program order: the plain listener, the
    optional TLS listener, the summary.  The handlers registered with
    [on] run on later events.  An exception that leaves this computation
    is uncaught and ends the process. *)
Definition startup (w : world) : M (option server) :=
  listen_plain w (PORT w);;
  httpsServer ← start_https w;
  summary w;;
  mret httpsServer.

Definition SHUTDOWN_TIMEOUT : Z := 10000.

(** The two flags of [gracefulShutdown]'s closure. *)
Record flags := {
  httpClosed : bool;
  httpsClosed : bool
}.

(** The process while it shuts down: still running, or gone with an exit
    code. *)
Inductive process :=
| Running (f : flags)
| Exited (code : Z).

(** [checkAndExit()]. *)
Definition checkAndExit (f : flags) : list event * process :=
  if httpClosed f && httpsClosed f then
    ([Console LOG (lit "All servers closed successfully.");
      Console LOG (lit "Graceful shutdown complete.");
      Exit 0], Exited 0)
  else ([], Running f).

(** [gracefulShutdown(signal)] up to its return: both [close] calls and the
    timer. *)
Definition gracefulShutdown (httpsServer : option server) (signal : jsstring)
    : list event * process :=
  ([Console LOG ([10%N] ++ signal ++ lit " received. Starting graceful shutdown...");
    Console LOG (lit "Closing HTTP server...");
    Close Plain]
   ++ match httpsServer with
      | Some _ => [Console LOG (lit "Closing HTTPS server..."); Close Tls]
      | None => []
      end
   ++ [SetTimeout SHUTDOWN_TIMEOUT],
   Running {| httpClosed := false; httpsClosed := negb (bool_decide (is_Some httpsServer)) |}).

Definition closed_text (name : string) (err : option sys_error) : event :=
  match err with
  | Some e => Console ERROR (lit "Error closing " ++ lit name ++ lit " server: " ++ emessage e)
  | None => Console LOG (lit name ++ lit " server closed.")
  end.

(** One callback run by the event loop.  After [process.exit] nothing runs. *)
Definition on_callback (p : process) (c : callback) : list event * process :=
  match p with
  | Exited code => ([], Exited code)
  | Running f =>
      match c with
      | Closed Plain err =>
          let '(t, p') := checkAndExit {| httpClosed := true; httpsClosed := httpsClosed f |} in
          (closed_text "HTTP" err :: t, p')
      | Closed Tls err =>
          let '(t, p') := checkAndExit {| httpClosed := httpClosed f; httpsClosed := true |} in
          (closed_text "HTTPS" err :: t, p')
      | Timeout =>
          ([Console ERROR (lit "Could not close connections in time, forcefully shutting down");
            Exit 1], Exited 1)
      end
  end.

(** The callbacks [cs] run in order, from state [p]. *)
Fixpoint run (p : process) (cs : list callback) : list event * process :=
  match cs with
  | [] => ([], p)
  | c :: cs' =>
      let '(t, p') := on_callback p c in
      let '(t', p'') := run p' cs' in
      (t ++ t', p'')
  end.

(** A signal followed by the callbacks [cs]. *)
Definition shutdown (httpsServer : option server) (signal : jsstring) (cs : list callback)
    : list event * process :=
  let '(t, p) := gracefulShutdown httpsServer signal in
  let '(t', p') := run p cs in
  (t ++ t', p').

(** An error as a server emits it: the error and its [syscall] property. *)
Record emitted := {
  failure : sys_error;
  syscall : option jsstring
}.

(** The listener of the plain server's 'error' event. *)
Definition on_http_error (w : world) (ev : emitted) : M unit :=
  if negb (bool_decide (syscall ev = Some (lit "listen"))) then throw (failure ev)
  else if bool_decide (ecode (failure ev) = Some (lit "EACCES")) then
    error (lit "Port " ++ PORT w ++ lit " requires elevated privileges");;
    error (lit "Try running with sudo or use a port above 1024");;
    emit (Exit 1)
  else if bool_decide (ecode (failure ev) = Some (lit "EADDRINUSE")) then
    error (lit "Port " ++ PORT w ++ lit " is already in use");;
    error (lit "Please stop the existing server or use a different port");;
    emit (Exit 1)
  else throw (failure ev).

(** The 'uncaughtException' handler; [inspect] is the text that the console
    prints for an error object. *)
Definition uncaughtException (inspect : sys_error -> jsstring) (e : sys_error) : M unit :=
  error (lit "Uncaught Exception: " ++ inspect e);;
  emit (Exit 1).

(** The plain server emits [ev]: its listener runs, and what the listener
    throws reaches the 'uncaughtException' handler. *)
Definition emit_http_error (w : world) (inspect : sys_error -> jsstring) (ev : emitted)
    : M unit :=
  try_catch (on_http_error w ev) (uncaughtException inspect).

End Server.

(** ** The second server module: the variant that binds to HOST and closes
    its listeners one after the other *)

Module ServerAlt.

Import Https.

(** What the shutdown waits for: the plain listener's callback, then, if
    there is a TLS listener, that listener's. *)
Inductive stage := WaitingPlain | WaitingTls.

Inductive process :=
| Running (s : stage)
| Exited (code : Z).

(** [gracefulShutdown(signal)] up to its return: the plain listener's
    [close] and the timer. *)
Definition gracefulShutdown (signal : jsstring) : list event * process :=
  ([Console LOG ([10%N] ++ lit "Received " ++ signal ++ lit ". Starting graceful shutdown...");
    Close Plain;
    SetTimeout 10000],
   Running WaitingPlain).

(** One callback run by the event loop; a listener whose [close] was not
    called has no callback to run. *)
Definition on_callback (httpsServer : option server) (p : process) (c : callback)
    : list event * process :=
  match p with
  | Exited code => ([], Exited code)
  | Running s =>
      match c, s with
      | Closed Plain _, WaitingPlain =>
          match httpsServer with
          | Some _ => ([Console LOG (lit "HTTP Server closed"); Close Tls], Running WaitingTls)
          | None => ([Console LOG (lit "HTTP Server closed"); Exit 0], Exited 0)
          end
      | Closed Tls _, WaitingTls =>
          ([Console LOG (lit "HTTPS Server closed"); Exit 0], Exited 0)
      | Timeout, _ =>
          ([Console ERROR (lit "Forced shutdown after timeout"); Exit 1], Exited 1)
      | _, _ => ([], Running s)
      end
  end.

Fixpoint run (httpsServer : option server) (p : process) (cs : list callback)
    : list event * process :=
  match cs with
  | [] => ([], p)
  | c :: cs' =>
      let '(t, p') := on_callback httpsServer p c in
      let '(t', p'') := run httpsServer p' cs' in
      (t ++ t', p'')
  end.

Definition shutdown (httpsServer : option server) (signal : jsstring) (cs : list callback)
    : list event * process :=
  let '(t, p) := gracefulShutdown signal in
  let '(t', p') := run httpsServer p cs in
  (t ++ t', p').

(** [process.env.HOST || '127.0.0.1']. *)
Definition hostname (w : world) : jsstring :=
  or_else (w_env w !! "HOST"%string) (lit "127.0.0.1").

(** [parseInt(process.env.X, 10)]; of [undefined] it is NaN. *)
Definition env_int (v : option jsstring) : option Z :=
  match v with
  | Some s => parseInt s
  | None => None
  end.

(** [parseInt(process.env.PORT, 10) || 3000]. *)
Definition port (w : world) : Z :=
  or_num (env_int (w_env w !! "PORT"%string)) 3000.

(** [parseInt(process.env.HTTPS_PORT, 10) || 443]. *)
Definition httpsPort (w : world) : Z :=
  or_num (env_int (w_env w !! "HTTPS_PORT"%string)) 443.

Definition enableHttps (w : world) : bool :=
  env_is (w_env w) "ENABLE_HTTPS" "true".

Definition log (text : jsstring) : M unit := emit (Console LOG text).

(** [httpServer.listen(port, hostname, ...)]; the event carries the port,
    the address it binds is [hostname]. *)
Definition listen_plain (w : world) : M unit :=
  match w_listen_refuses w (show (port w)) with
  | Some e => throw e
  | None => emit (Listen Plain (show (port w)))
  end.

(** The catch block of the HTTPS start-up. *)
Definition https_failed (e : sys_error) : M (option server) :=
  emit (Console ERROR (lit "Warning: Failed to start HTTPS server: " ++ emessage e));;
  log (lit "Continuing with HTTP server only...");;
  log (lit "To enable HTTPS, ensure SSL certificates are in place:");;
  log (lit "  - Set SSL_KEY_PATH environment variable");;
  log (lit "  - Set SSL_CERT_PATH environment variable");;
  log (lit "  - Or place certificates in ./certs/server.key and ./certs/server.cert");;
  mret None.

(** The conditional HTTPS start-up; its value is [httpsServer]. *)
Definition start_https (w : world) : M (option server) :=
  if enableHttps w then
    try_catch
      (httpsServer ← createSecureServer w (PortNumber (httpsPort w));
       log (lit "HTTPS Server running on port " ++ show (httpsPort w));;
       log (lit "TLS encryption enabled");;
       mret (Some httpsServer))
      https_failed
  else mret None.

(** The module's top level, in program order. *)
Definition startup (w : world) : M (option server) :=
  listen_plain w;;
  start_https w.

(** The listener of the plain server's 'error' event; [port] is a Number,
    so [bind] is "Port <port>". *)
Definition on_http_error (w : world) (syscall : option jsstring) (e : sys_error) : M unit :=
  if negb (bool_decide (syscall = Some (lit "listen"))) then throw e
  else if bool_decide (ecode e = Some (lit "EACCES")) then
    emit (Console ERROR (lit "Port " ++ show (port w) ++ lit " requires elevated privileges"));;
    emit (Exit 1)
  else if bool_decide (ecode e = Some (lit "EADDRINUSE")) then
    emit (Console ERROR (lit "Port " ++ show (port w) ++ lit " is already in use"));;
    emit (Exit 1)
  else throw e.

End ServerAlt.

(** ** Observations on responses and traces, for the statements below *)

Section Observations.

Import App Https.

(** A property of a JSON object body. *)
Definition field (name : string) (r : response) : option json :=
  match rbody r with
  | Json (JObj fields) =>
      option_map snd (List.find (fun kv => String.eqb (fst kv) name) fields)
  | _ => None
  end.

Definition is_exit (e : event) : bool :=
  match e with
  | Exit _ => true
  | _ => false
  end.

Definition is_fs (e : event) : bool :=
  match e with
  | ExistsSync _ | ReadFileSync _ => true
  | _ => false
  end.

(** A context whose limiter has counted [n] requests for every client and
    whose body parsers raise nothing. *)
Definition counted (n : Z) : context := {|
  totalHits := fun _ => n;
  json_error := None;
  urlencoded_error := None;
  now_iso := lit "2024-01-15T10:30:00.000Z";
  uptime := 3600%Q
|}.

(** A request as a client at 203.0.113.7 sends it without a proxy. *)
Definition direct (m : method) (target : string) : request :=
  express_request ∅ {| forwarded_for := None; socket_address := Some (lit "203.0.113.7") |}
    m (lit target) (lit target).

(** The error body-parser raises for a body over the limit. *)
Definition too_large : http_error := {|
  err_status := Some 413;
  err_statusCode := Some 413;
  err_message := Some (lit "request entity too large");
  err_stack := Some (lit "PayloadTooLargeError: request entity too large")
|}.

(** The same context with the JSON body parser raising [e]. *)
Definition json_raises (e : http_error) (ctx : context) : context := {|
  totalHits := totalHits ctx;
  json_error := Some e;
  urlencoded_error := urlencoded_error ctx;
  now_iso := now_iso ctx;
  uptime := uptime ctx
|}.

(** An exception of a middleware's own code: a [TypeError], which
    declares no status. *)
Definition type_error : http_error := {|
  err_status := None;
  err_statusCode := None;
  err_message := Some (lit "Cannot read properties of undefined");
  err_stack := Some (lit "TypeError: Cannot read properties of undefined")
|}.

(** An error object that declares a status that is no HTTP status code. *)
Definition status_42 : http_error := {|
  err_status := Some 42;
  err_statusCode := None;
  err_message := Some (lit "out of range");
  err_stack := None
|}.

(** A comma or a white-space character. *)
Definition blank (c : N) : bool := is_white_space c || (c =? 44)%N.

(** No white space at either end. *)
Definition trimmed (s : jsstring) : Prop :=
  (forall c, head s = Some c -> is_white_space c = false) /\
  (forall c, last s = Some c -> is_white_space c = false).

(** The resolved paths that [loadCertificates] reads. *)
Definition key_path (w : world) : jsstring :=
  w_resolve w (or_else (w_env w !! "SSL_KEY_PATH"%string) DEFAULT_KEY_PATH).

Definition cert_path (w : world) : jsstring :=
  w_resolve w (or_else (w_env w !! "SSL_CERT_PATH"%string) DEFAULT_CERT_PATH).

(** A file that is missing, cannot be read, or is empty. *)
Definition unusable (w : world) (p : jsstring) : Prop :=
  match w_fs w !! p with
  | Some (Readable (_ :: _)) => False
  | _ => True
  end.

Definition four_calls (kp cp : jsstring) : list event :=
  [ExistsSync kp; ExistsSync cp; ReadFileSync kp; ReadFileSync cp].

Definition initializing : event := Console LOG (lit "Initializing HTTPS server...").

Definition create_failed (e : sys_error) : event :=
  Console ERROR (lit "Failed to create HTTPS server: " ++ emessage e).

Definition is_console (e : event) : bool :=
  match e with
  | Console _ _ => true
  | _ => false
  end.

(** What the catch block of the HTTPS start-up logs for the error [e]. *)
Definition failure_report (e : sys_error) : list event :=
  [Console ERROR (lit "Failed to start HTTPS server: " ++ emessage e);
   Console ERROR [];
   Console ERROR (lit "Troubleshooting steps:");
   Console ERROR (lit "1. Ensure SSL certificate files exist at configured paths");
   Console ERROR (lit "2. Verify SSL_KEY_PATH and SSL_CERT_PATH environment variables");
   Console ERROR (lit "3. Check file permissions on certificate files");
   Console ERROR (lit "4. For development, generate self-signed certificates");
   Console ERROR [];
   Console ERROR (lit "HTTP server will continue running without HTTPS.");
   Console ERROR (lit "Set ENABLE_HTTPS=false to suppress this message.")].

(** A start with HTTPS enabled, no certificate files and every port free. *)
Definition no_certificates : world := {|
  w_env := {[ "ENABLE_HTTPS"%string := lit "true" ]};
  w_fs := ∅;
  w_resolve := fun p => p;
  w_tls_refuses := fun _ _ => None;
  w_listen_refuses := fun _ => None
|}.

(** The listener [s] has reported closed among the callbacks [cs]. *)
Definition reported (s : listener) (cs : list callback) : bool :=
  existsb (fun c => match c, s with
                    | Closed Plain _, Plain | Closed Tls _, Tls => true
                    | _, _ => false
                    end) cs.

(** The timer has fired among the callbacks [cs]. *)
Definition timed_out (cs : list callback) : bool :=
  existsb (fun c => match c with Timeout => true | _ => false end) cs.

(** [pieces.join(sep)] for a one-unit separator. *)
Fixpoint join (sep : N) (pieces : list jsstring) : jsstring :=
  match pieces with
  | [] => []
  | p :: ps =>
      match ps with
      | [] => p
      | _ :: _ => p ++ sep :: join sep ps
      end
  end.

(** An origin as one writes it in a list: not empty, no comma, no white
    space at either end. *)
Definition plain_origin (o : jsstring) : Prop :=
  o <> [] /\ ~ In 44%N o /\ trimmed o.

(** The three error codes that [loadCertificates] describes itself. *)
Definition known_code (e : sys_error) : Prop :=
  ecode e = Some (lit "ENOENT") \/ ecode e = Some (lit "EACCES") \/ ecode e = Some (lit "EISDIR").

(** What the second module's catch block logs for the error [e]. *)
Definition alt_failure_report (e : sys_error) : list event :=
  [Console ERROR (lit "Warning: Failed to start HTTPS server: " ++ emessage e);
   Console LOG (lit "Continuing with HTTP server only...");
   Console LOG (lit "To enable HTTPS, ensure SSL certificates are in place:");
   Console LOG (lit "  - Set SSL_KEY_PATH environment variable");
   Console LOG (lit "  - Set SSL_CERT_PATH environment variable");
   Console LOG (lit "  - Or place certificates in ./certs/server.key and ./certs/server.cert")].

End Observations.

(** * Theorems *)

(** ** Rate-limit configuration *)

Section Config.

Import RateLimiter.

Lemma parseIntWithDefault_cases (v : option jsstring) (d : Z) :
  parseIntWithDefault v d =
    match v with
    | None => d
    | Some s =>
        match parseInt s with
        | Some n => if 0 <? n then n else d
        | None => d
        end
    end.
Proof.
  destruct v as [[|c s]|]; reflexivity.
Qed.

(** Every value that the limiter is configured with is a positive integer
    when the default is. *)
Lemma parseIntWithDefault_positive (v : option jsstring) (d : Z) :
  0 < d -> 0 < parseIntWithDefault v d.
Proof.
  intros Hd. rewrite parseIntWithDefault_cases.
  destruct v as [s|]; [|exact Hd].
  destruct (parseInt s) as [n|]; [|exact Hd].
  destruct (0 <? n) eqn:E; [|exact Hd].
  now apply Z.ltb_lt.
Qed.

(** X1: whatever the two variables hold, the limiter's window and limit
    are positive. *)
Theorem rateLimiter_options_positive (env : environment) :
  0 < windowMs (rateLimiter_options env) /\ 0 < limit (rateLimiter_options env).
Proof.
  split; apply parseIntWithDefault_positive; reflexivity.
Qed.

Example parseInt_examples :
  parseInt (lit "42") = Some 42 /\ parseInt (lit "  -7x") = Some (-7) /\
  parseInt (lit "abc") = None /\ parseInt [] = None /\ parseInt (lit "+") = None /\
  parseInt (lit "1.9") = Some 1 /\ parseInt (lit "0x10") = Some 0.
Proof. repeat split; reflexivity. Qed.

Example string_examples :
  split 44 (lit "a,,b,") = [lit "a"; []; lit "b"; []] /\
  trim (lit "  a b ") = lit "a b" /\
  includes (lit "the SSL key") (lit "SSL ") = true /\
  show 0 = lit "0" /\ show 900000 = lit "900000" /\ show (-5) = lit "-5".
Proof. repeat split; reflexivity. Qed.

Example white_space_examples :
  is_white_space 32 = true /\ is_white_space 10 = true /\ is_white_space 160 = true /\
  is_white_space 8200 = true /\ is_white_space 65279 = true /\
  is_white_space 14 = false /\ is_white_space 8203 = false /\ is_white_space 44 = false.
Proof. repeat split; reflexivity. Qed.

(** C1 (the code at the failing input): RATE_LIMIT_MAX=12abc is not a
    number, yet the limiter is configured with the limit 12 taken from its
    leading digits, where the documented default is 100; the same happens to
    the window for RATE_LIMIT_WINDOW_MS=9e5, which becomes 9 ms. *)
Theorem rateLimiter_partial_value :
  limit (rateLimiter_options {[ "RATE_LIMIT_MAX"%string := lit "12abc" ]}) = 12 /\
  windowMs (rateLimiter_options {[ "RATE_LIMIT_WINDOW_MS"%string := lit "9e5" ]}) = 9 /\
  DEFAULT_MAX_REQUESTS = 100 /\ DEFAULT_WINDOW_MS = 900000.
Proof.
  repeat split; vm_compute; reflexivity.
Qed.

End Config.

(** ** The request pipeline *)

Section Pipeline.

Import RateLimiter App.

Lemma app_rejects env ctx req :
  limit (rateLimiter_options env) < totalHits ctx (keyGenerator req) ->
  app env ctx req = handler req (rateLimiter_options env).
Proof.
  intros H. unfold app, rateLimit.
  apply Z.ltb_lt in H. rewrite H. reflexivity.
Qed.

Lemma app_admits env ctx req :
  totalHits ctx (keyGenerator req) <= limit (rateLimiter_options env) ->
  app env ctx req =
    if method_eqb (req_method req) OPTIONS then ([], preflight env)
    else
      match json_error ctx with
      | Some err => error_handler env err
      | None =>
          match urlencoded_error ctx with
          | Some err => error_handler env err
          | None =>
              match find_route req with
              | Some Root => ([], root_handler)
              | Some Health => ([], health_handler ctx)
              | None => ([], not_found req)
              end
          end
      end.
Proof.
  intros H. unfold app, rateLimit.
  apply Z.ltb_ge in H. rewrite H. reflexivity.
Qed.

(** C2: a request that the rate limiter rejects (its client's count exceeds
    the configured limit) is answered with status 429 and the JSON body
    {status: 429, error: "Too Many Requests", message: <string>}, and one
    warning is logged that names the client identifier, the request path,
    the configured limit and the configured window. *)
Theorem rejected_request_429 env ctx req :
  limit (rateLimiter_options env) < totalHits ctx (keyGenerator req) ->
  exists text : jsstring,
    app env ctx req =
      ([Console WARN
          (lit "[Rate Limit] Exceeded - IP: " ++ keyGenerator req ++
           lit ", Path: " ++ or_str (originalUrl req) (or_str (url req) (lit "/")) ++
           lit ", Limit: " ++ show (limit (rateLimiter_options env)) ++
           lit ", Window: " ++ show (windowMs (rateLimiter_options env)) ++ lit "ms")],
       {| status := 429;
          ctype := Some (lit "application/json");
          rbody := Json (JObj [("status"%string, JNum 429);
                               ("error"%string, JStr (lit "Too Many Requests"));
                               ("message"%string, JStr text)]) |}).
Proof.
  intros H. rewrite (app_rejects _ _ _ H).
  eexists. unfold handler, reject, exceeded_text, keyGenerator.
  rewrite app_nil_r. reflexivity.
Qed.

Lemma rejected_request_429_witness :
  limit (rateLimiter_options ∅) < totalHits (counted 101) (keyGenerator (direct GET "/")) /\
  exists text : jsstring,
    app ∅ (counted 101) (direct GET "/") =
      ([Console WARN
          (lit "[Rate Limit] Exceeded - IP: " ++ keyGenerator (direct GET "/") ++
           lit ", Path: " ++ or_str (originalUrl (direct GET "/"))
                               (or_str (url (direct GET "/")) (lit "/")) ++
           lit ", Limit: " ++ show (limit (rateLimiter_options ∅)) ++
           lit ", Window: " ++ show (windowMs (rateLimiter_options ∅)) ++ lit "ms")],
       {| status := 429;
          ctype := Some (lit "application/json");
          rbody := Json (JObj [("status"%string, JNum 429);
                               ("error"%string, JStr (lit "Too Many Requests"));
                               ("message"%string, JStr text)]) |}).
Proof.
  split.
  - vm_compute. reflexivity.
  - apply (rejected_request_429 ∅ (counted 101) (direct GET "/")).
    vm_compute. reflexivity.
Defined.

(** C3: the key under which the limiter counts a request is the forwarded
    address when TRUST_PROXY is 'true' and the header carries one, otherwise
    the address of the connection, and "unknown" when neither is there; the
    limiter's decision reads the counter of that key only. *)
Theorem client_identifier env c m target pathname :
  let req := express_request env c m target pathname in
  let trusted := env_is env "TRUST_PROXY" "true" in
  (forall a, trusted = true -> forwarded_for c = Some a -> a <> [] ->
             keyGenerator req = a) /\
  (forall r, trusted && truthy (forwarded_for c) = false ->
             socket_address c = Some r -> r <> [] ->
             keyGenerator req = r) /\
  (trusted && truthy (forwarded_for c) = false ->
   truthy (socket_address c) = false ->
   keyGenerator req = lit "unknown") /\
  (forall opts h hits hits',
     hits (keyGenerator req) = hits' (keyGenerator req) ->
     rateLimit opts h hits req = rateLimit opts h hits' req).
Proof.
  cbn zeta. unfold keyGenerator, express_request, express_ip, trust_proxy; cbn [ip remoteAddress].
  repeat split.
  - intros a Ht Hf Ha. rewrite Ht, Hf. destruct a; [contradiction|reflexivity].
  - intros r Ht Hs Hr. rewrite Hs.
    destruct (env_is env "TRUST_PROXY" "true"), (forwarded_for c) as [[|x a]|];
      cbn in *; try discriminate; destruct r; try contradiction; reflexivity.
  - intros Ht Hs.
    destruct (env_is env "TRUST_PROXY" "true"), (forwarded_for c) as [[|x a]|],
      (socket_address c) as [[|y r]|]; cbn in *; try discriminate; reflexivity.
  - intros opts h hits hits' E. unfold rateLimit, keyGenerator; cbn [ip remoteAddress].
    unfold keyGenerator, express_request, express_ip, trust_proxy in E; cbn [ip remoteAddress] in E.
    rewrite E. reflexivity.
Qed.

Lemma client_identifier_witness :
  keyGenerator
    (express_request {[ "TRUST_PROXY"%string := lit "true" ]}
       {| forwarded_for := Some (lit "198.51.100.4"); socket_address := Some (lit "10.0.0.1") |}
       GET (lit "/") (lit "/"))
  = lit "198.51.100.4".
Proof.
  destruct (client_identifier {[ "TRUST_PROXY"%string := lit "true" ]}
           {| forwarded_for := Some (lit "198.51.100.4"); socket_address := Some (lit "10.0.0.1") |}
           GET (lit "/") (lit "/")) as [H _].
  apply H.
  - vm_compute. reflexivity.
  - reflexivity.
  - discriminate.
Defined.

(** The handler's answer to an error that carries a message and whose
    declared status codes are HTTP status codes. *)
Lemma error_handler_run_valid (env : environment) (err : http_error) (m : jsstring) :
  err_message err = Some m -> m <> [] ->
  (forall s, err_status err = Some s -> 100 <= s <= 999) ->
  (forall s, err_statusCode err = Some s -> 100 <= s <= 999) ->
  let code := default 500 (match err_status err with
                           | Some s => Some s
                           | None => err_statusCode err
                           end) in
  let production := env_is env "NODE_ENV" "production" in
  100 <= code <= 999 /\
  error_handler_run env err =
    ([Console ERROR (lit "[Error] " ++ m); Console ERROR (show_opt (err_stack err))],
     Some {| status := code; ctype := Some (lit "application/json");
             rbody := Json (JObj
               ([("status", JNum code);
                 ("error", JStr (if (code =? 500)%Z then lit "Internal Server Error" else lit "Error"));
                 ("message", JStr (if production && (code =? 500)%Z then generic_message else m))]%string
                ++ (if negb production && truthy (err_stack err)
                    then [("stack"%string, JStr (show_opt (err_stack err)))] else []))) |}).
Proof.
  intros Hm Hne Hs Hc. cbn zeta.
  assert (Hcode : or_num (err_status err) (or_num (err_statusCode err) 500)
                  = default 500 (match err_status err with
                                 | Some s => Some s
                                 | None => err_statusCode err
                                 end)).
  { destruct (err_status err) as [s|].
    - specialize (Hs s eq_refl). cbn. destruct (Z.eqb_spec s 0); [lia | reflexivity].
    - destruct (err_statusCode err) as [s|]; [|reflexivity].
      specialize (Hc s eq_refl). cbn. destruct (Z.eqb_spec s 0); [lia | reflexivity]. }
  assert (Hr : 100 <= default 500 (match err_status err with
                                   | Some s => Some s
                                   | None => err_statusCode err
                                   end) <= 999).
  { destruct (err_status err) as [s|]; [exact (Hs s eq_refl)|].
    destruct (err_statusCode err) as [s|]; [exact (Hc s eq_refl) | cbn; lia]. }
  split; [exact Hr|].
  unfold error_handler_run, error_handler. rewrite Hcode, Hm. cbn [status].
  unfold valid_status.
  destruct (Z.leb_spec 100 (default 500 (match err_status err with
                                          | Some s => Some s
                                          | None => err_statusCode err
                                          end))); [|lia].
  destruct (Z.leb_spec (default 500 (match err_status err with
                                      | Some s => Some s
                                      | None => err_statusCode err
                                      end)) 999); [|lia].
  destruct m as [|c m']; [contradiction|].
  destruct (err_stack err) as [[|c' st]|], (env_is env "NODE_ENV" "production");
    reflexivity.
Qed.

(** The handler's send throws for a status code that Node refuses: nothing
    of the JSON body is sent. *)
Lemma error_handler_run_throws (env : environment) (err : http_error) :
  valid_status (or_num (err_status err) (or_num (err_statusCode err) 500)) = false ->
  snd (error_handler_run env err) = None.
Proof.
  intros H. unfold error_handler_run, error_handler. cbn [status snd]. rewrite H. reflexivity.
Qed.

Example error_handler_examples :
  snd (error_handler_run ∅ status_42) = None /\
  option_map status (snd (error_handler_run ∅ type_error)) = Some 500 /\
  (snd (error_handler_run {[ "NODE_ENV"%string := lit "production" ]} type_error)
     ≫= field "message") = Some (JStr generic_message) /\
  (snd (error_handler_run {[ "NODE_ENV"%string := lit "production" ]} too_large)
     ≫= field "message") = Some (JStr (lit "request entity too large")) /\
  (snd (error_handler_run {[ "NODE_ENV"%string := lit "production" ]} too_large)
     ≫= field "stack") = None.
Proof. repeat split; vm_compute; reflexivity. Qed.

(** C4: an error that reaches the handler carries a message, and the status
    codes it declares are HTTP status codes (100..999), as those of every
    error that the stages of this application raise.  For such an error the
    handler logs its two lines and sends a JSON response: the status is the
    error's declared status ([status], else [statusCode]), and 500 when it
    declares none; the body's [status] repeats it; [error] is "Internal
    Server Error" for 500 and "Error" otherwise; [message] is the generic
    string when the environment is production and the status is 500, and
    the error's own message in every other case; [stack] is absent in
    production, and outside production it is the error's stack when the
    error has one. *)
Theorem error_handler_answer (env : environment) (err : http_error) (m : jsstring) :
  err_message err = Some m -> m <> [] ->
  (forall s, err_status err = Some s -> 100 <= s <= 999) ->
  (forall s, err_statusCode err = Some s -> 100 <= s <= 999) ->
  let production := env_is env "NODE_ENV" "production" in
  exists resp,
    error_handler_run env err =
      ([Console ERROR (lit "[Error] " ++ m); Console ERROR (show_opt (err_stack err))],
       Some resp) /\
    status resp = default 500 (match err_status err with
                               | Some s => Some s
                               | None => err_statusCode err
                               end) /\
    ctype resp = Some (lit "application/json") /\
    field "status" resp = Some (JNum (status resp)) /\
    field "error" resp =
      Some (JStr (if status resp =? 500 then lit "Internal Server Error" else lit "Error")) /\
    field "message" resp =
      Some (JStr (if production && (status resp =? 500) then generic_message else m)) /\
    (production = true -> field "stack" resp = None) /\
    (production = false ->
     field "stack" resp = (if truthy (err_stack err) then option_map JStr (err_stack err) else None)).
Proof.
  intros Hm Hne Hs Hc. cbn zeta.
  destruct (error_handler_run_valid env err m Hm Hne Hs Hc) as [_ Hrun].
  cbn zeta in Hrun. eexists. split; [exact Hrun|].
  cbn [status ctype].
  repeat split.
  - intros Hp. rewrite Hp. reflexivity.
  - intros Hp. rewrite Hp.
    destruct (err_stack err) as [[|c st]|]; reflexivity.
Qed.

Lemma error_handler_answer_witness :
  exists resp,
    snd (error_handler_run ∅ too_large) = Some resp /\ status resp = 413 /\
    field "message" resp = Some (JStr (lit "request entity too large")).
Proof.
  destruct (error_handler_answer ∅ too_large (lit "request entity too large"))
    as (resp & Hrun & Hst & _ & _ & _ & Hmsg & _).
  - reflexivity.
  - discriminate.
  - intros s [= <-]. lia.
  - intros s [= <-]. lia.
  - exists resp. rewrite Hrun. split; [reflexivity|]. split; [exact Hst|].
    rewrite Hmsg, Hst. reflexivity.
Defined.




(** C8 (as stated, refuted): requests that match no route and are not
    answered 404: one from a client over its limit (429), a preflight
    (204, from the CORS stage), one with a body over the size limit (413). *)
Lemma unmatched_not_always_404 :
  find_route (direct GET "/does-not-exist") = None /\
  find_route (direct OPTIONS "/does-not-exist") = None /\
  status (snd (app ∅ (counted 101) (direct GET "/does-not-exist"))) = 429 /\
  status (snd (app ∅ (counted 1) (direct OPTIONS "/does-not-exist"))) = 204 /\
  status (snd (app ∅ (json_raises too_large (counted 1)) (direct GET "/does-not-exist"))) = 413.
Proof.
  repeat split; vm_compute; reflexivity.
Qed.

(** C8 (amended): a request that matches no route, that the rate limiter
    admits, that is not an OPTIONS request (which the CORS stage answers)
    and whose body the parsers do not refuse is answered with status 404
    and the JSON body {status: 404, error: "Not Found", message: <string>,
    path: <the request's original URL>}. *)
Theorem unmatched_not_found env ctx req :
  find_route req = None ->
  totalHits ctx (keyGenerator req) <= limit (rateLimiter_options env) ->
  req_method req <> OPTIONS ->
  json_error ctx = None ->
  urlencoded_error ctx = None ->
  app env ctx req =
    ([], {| status := 404;
            ctype := Some (lit "application/json");
            rbody := Json (JObj [("status"%string, JNum 404);
                                 ("error"%string, JStr (lit "Not Found"));
                                 ("message"%string,
                                  JStr (lit "The requested resource could not be found"));
                                 ("path"%string, JStr (originalUrl req))]) |}).
Proof.
  intros Hr Hl Hm Hj Hu.
  rewrite (app_admits _ _ _ Hl), Hj, Hu, Hr.
  destruct (req_method req); try reflexivity. contradiction.
Qed.

Lemma unmatched_not_found_witness :
  app ∅ (counted 1) (direct GET "/does-not-exist") =
    ([], {| status := 404;
            ctype := Some (lit "application/json");
            rbody := Json (JObj [("status"%string, JNum 404);
                                 ("error"%string, JStr (lit "Not Found"));
                                 ("message"%string,
                                  JStr (lit "The requested resource could not be found"));
                                 ("path"%string, JStr (lit "/does-not-exist"))]) |}).
Proof.
  apply (unmatched_not_found ∅ (counted 1) (direct GET "/does-not-exist"));
    try reflexivity.
  - vm_compute. discriminate.
  - discriminate.
Defined.

(** The router's choice, spelled out: no route is found exactly when every
    registered route fails on the method or on the path. *)
Lemma find_route_none req :
  find_route req = None <->
  forall rm rp r, In (rm, rp, r) routes ->
    handles rm (req_method req) && path_matches rp (path req) = false.
Proof.
  unfold find_route. split.
  - intros H rm rp r Hin.
    destruct (List.find _ routes) eqn:E; [discriminate|].
    apply (find_none _ _ E (rm, rp, r) Hin).
  - intros H.
    destruct (List.find _ routes) as [[[rm rp] r]|] eqn:E; [|reflexivity].
    apply find_some in E. destruct E as [Hin Ht]. cbn in Ht.
    rewrite (H rm rp r Hin) in Ht. discriminate.
Qed.

End Pipeline.

(** ** The CORS whitelist *)

Section Origins.

Import Security.

Lemma trimStart_white s :
  forallb is_white_space s = true -> trimStart s = [].
Proof.
  induction s as [|c s IH]; cbn; [reflexivity|].
  intros H. apply andb_prop in H. destruct H as [Hc Hs].
  rewrite Hc. exact (IH Hs).
Qed.

Lemma trim_white s :
  forallb is_white_space s = true -> trim s = [].
Proof.
  intros H. unfold trim. rewrite (trimStart_white s H). reflexivity.
Qed.

Lemma trimStart_head s c :
  head (trimStart s) = Some c -> is_white_space c = false.
Proof.
  induction s as [|d s IH]; cbn; [discriminate|].
  destruct (is_white_space d) eqn:E; [exact IH|].
  cbn. intros [= <-]. exact E.
Qed.

Lemma trimEnd_cons c s :
  is_white_space c = false -> trimEnd (c :: s) = c :: trimEnd s.
Proof.
  intros E. cbn. destruct (trimEnd s); [rewrite E|]; reflexivity.
Qed.

Lemma trimEnd_last s c :
  last (trimEnd s) = Some c -> is_white_space c = false.
Proof.
  induction s as [|d s IH]; cbn; [discriminate|].
  destruct (trimEnd s) as [|e r] eqn:E.
  - destruct (is_white_space d) eqn:Ed; cbn; [discriminate|].
    intros [= <-]. exact Ed.
  - intros H. apply IH. exact H.
Qed.

Lemma trim_trimmed s : trimmed (trim s).
Proof.
  unfold trim. split.
  - intros c. destruct (trimStart s) as [|d t] eqn:E; [discriminate|].
    assert (Hd : is_white_space d = false).
    { apply (trimStart_head s). rewrite E. reflexivity. }
    rewrite (trimEnd_cons d t Hd). cbn. intros [= <-]. exact Hd.
  - apply trimEnd_last.
Qed.

Lemma split_blank s :
  forallb blank s = true ->
  Forall (fun p => forallb is_white_space p = true) (split 44 s).
Proof.
  induction s as [|c s IH]; cbn.
  - intros _. repeat constructor.
  - intros H. apply andb_prop in H. destruct H as [Hc Hs].
    specialize (IH Hs). unfold blank in Hc.
    destruct (c =? 44)%N eqn:E.
    + constructor; [reflexivity|exact IH].
    + rewrite orb_false_r in Hc.
      destruct (split 44 s) as [|w ws].
      * repeat constructor. cbn. rewrite Hc. reflexivity.
      * inversion IH as [|? ? Hw Hws]; subst.
        constructor; [|exact Hws]. cbn. rewrite Hc. exact Hw.
Qed.

Lemma filter_trim_white (l : list jsstring) :
  Forall (fun p => forallb is_white_space p = true) l ->
  List.filter (fun origin => (0 <? Z.of_nat (List.length origin)))
    (List.map (fun origin => trim origin) l) = [].
Proof.
  induction 1 as [|p l Hp Hl IH]; cbn; [reflexivity|].
  rewrite (trim_white p Hp). cbn. exact IH.
Qed.

(** C9: when ALLOWED_ORIGINS is set to a non-empty string of commas and
    white space only, the whitelist is empty and no origin is allowed; the
    two localhost defaults are the whitelist when the variable is unset or
    empty, and otherwise every entry is a trimmed piece of the variable's
    value; every entry is non-empty and has no white space at either end. *)
Theorem allowed_origins (env : environment) :
  (forall s, env !! "ALLOWED_ORIGINS"%string = Some s -> s <> [] ->
             forallb blank s = true ->
             parseAllowedOrigins env = [] /\
             forall o, isOriginAllowed o (origin (corsOptions env)) = false) /\
  (env !! "ALLOWED_ORIGINS"%string = None \/ env !! "ALLOWED_ORIGINS"%string = Some [] ->
   parseAllowedOrigins env = [lit "http://localhost:3000"; lit "http://localhost:8080"]) /\
  (forall s, env !! "ALLOWED_ORIGINS"%string = Some s -> s <> [] ->
             forall o, In o (parseAllowedOrigins env) ->
                       exists piece, In piece (split 44 s) /\ o = trim piece) /\
  (forall o, In o (parseAllowedOrigins env) -> o <> [] /\ trimmed o).
Proof.
  unfold corsOptions, parseAllowedOrigins; cbn [origin].
  repeat split.
  - destruct s as [|c s]; [contradiction|]. rewrite H.
    apply filter_trim_white, split_blank. assumption.
  - intros o. destruct s as [|c s]; [contradiction|]. rewrite H.
    rewrite filter_trim_white; [reflexivity|]. apply split_blank. assumption.
  - intros [-> | ->]; reflexivity.
  - intros s Hs Hn o Ho. destruct s as [|c s]; [contradiction|]. rewrite Hs in Ho.
    apply filter_In in Ho. destruct Ho as [Ho _].
    apply in_map_iff in Ho. destruct Ho as [piece [<- Hin]].
    exists piece. split; [exact Hin|reflexivity].
  - destruct (env !! "ALLOWED_ORIGINS"%string) as [[|c s]|].
    + intros -> . cbn in H. destruct H as [H|[H|[]]]; discriminate.
    + intros ->. apply filter_In in H. destruct H as [_ H]. discriminate.
    + intros ->. cbn in H. destruct H as [H|[H|[]]]; discriminate.
  - destruct (env !! "ALLOWED_ORIGINS"%string) as [[|c s]|].
    + cbn in H. destruct H as [<-|[<-|[]]]; vm_compute; intros c [= <-]; reflexivity.
    + apply filter_In in H. destruct H as [H _].
      apply in_map_iff in H. destruct H as [piece [<- _]]. apply trim_trimmed.
    + cbn in H. destruct H as [<-|[<-|[]]]; vm_compute; intros c [= <-]; reflexivity.
  - destruct (env !! "ALLOWED_ORIGINS"%string) as [[|c s]|].
    + cbn in H. destruct H as [<-|[<-|[]]]; vm_compute; intros c [= <-]; reflexivity.
    + apply filter_In in H. destruct H as [H _].
      apply in_map_iff in H. destruct H as [piece [<- _]]. apply trim_trimmed.
    + cbn in H. destruct H as [<-|[<-|[]]]; vm_compute; intros c [= <-]; reflexivity.
Qed.

Lemma allowed_origins_witness :
  parseAllowedOrigins {[ "ALLOWED_ORIGINS"%string := lit " , ," ]} = [] /\
  forall o, isOriginAllowed o
              (origin (corsOptions {[ "ALLOWED_ORIGINS"%string := lit " , ," ]})) = false.
Proof.
  destruct (allowed_origins {[ "ALLOWED_ORIGINS"%string := lit " , ," ]}) as [H _].
  apply (H (lit " , ,")).
  - vm_compute. reflexivity.
  - discriminate.
  - vm_compute. reflexivity.
Defined.

End Origins.

(** ** Start-up of the TLS listener *)

Section Tls.

Import Https Server.

#[local] Arguments lit : simpl never.

Lemma read_certificates_run w kp cp :
  read_certificates w kp cp =
    match w_fs w !! kp, w_fs w !! cp with
    | None, _ => ([ExistsSync kp], inl key_not_found)
    | Some _, None => ([ExistsSync kp; ExistsSync cp], inl cert_not_found)
    | Some (Unreadable e), Some _ =>
        ([ExistsSync kp; ExistsSync cp; ReadFileSync kp], inl e)
    | Some (Readable _), Some (Unreadable e) => (four_calls kp cp, inl e)
    | Some (Readable []), Some (Readable _) =>
        (four_calls kp cp, inl (Error (lit "SSL private key file is empty")))
    | Some (Readable (_ :: _)), Some (Readable []) =>
        (four_calls kp cp, inl (Error (lit "SSL certificate file is empty")))
    | Some (Readable (a :: k)), Some (Readable (b :: c)) =>
        (four_calls kp cp, inr {| key := a :: k; cert := b :: c |})
    end.
Proof.
  unfold read_certificates, existsSync, readFileSync, mbind, M_bind, mret, M_ret, emit, throw.
  destruct (w_fs w !! kp) as [[[|a k]|e]|], (w_fs w !! cp) as [[[|b c]|e']|]; reflexivity.
Qed.

Lemma rethrow_throws e : exists e', rethrow e = ([], inl e').
Proof.
  unfold rethrow, throw. destruct (includes _ _); eauto.
Qed.

(** [loadCertificates] touches the file system only, starting with the key,
    and throws when a file is unusable. *)
Lemma loadCertificates_run w :
  (exists t, trace (loadCertificates w) = ExistsSync (key_path w) :: t) /\
  Forall (fun e => is_fs e = true) (trace (loadCertificates w)) /\
  (unusable w (key_path w) \/ unusable w (cert_path w) ->
   exists e, outcome (loadCertificates w) = inl e).
Proof.
  unfold loadCertificates, unusable. fold (key_path w) (cert_path w).
  rewrite read_certificates_run.
  destruct (w_fs w !! key_path w) as [[[|a k]|e]|], (w_fs w !! cert_path w) as [[[|b c]|e']|];
    unfold try_catch, trace, outcome;
    repeat match goal with
           | |- context [rethrow ?x] =>
               let e := fresh "e" in let H := fresh "H" in
               destruct (rethrow_throws x) as [e H]; rewrite H
           end;
    cbn; (split; [eauto | split; [repeat constructor | intros [[]|[]]; eauto]]).
Qed.

(** [createSecureServer] on a port in range, by the outcome of the
    certificate loading and of [https.createServer]. *)
Lemma createSecureServer_run w port n :
  parseInt (port_text port) = Some n -> 0 <= n <= 65535 ->
  createSecureServer w port =
    match outcome (loadCertificates w) with
    | inl e => (initializing :: trace (loadCertificates w) ++ [create_failed e], inl e)
    | inr c =>
        match w_tls_refuses w (key c) (cert c) with
        | Some e => (initializing :: trace (loadCertificates w) ++ [create_failed e], inl e)
        | None =>
            (initializing :: trace (loadCertificates w) ++ [Listen Tls (show n)],
             inr {| srv_options := {| opt_key := key c; opt_cert := cert c;
                                      minVersion := MIN_TLS_VERSION |};
                    srv_port := n |})
        end
    end.
Proof.
  intros Hp [Hlo Hhi]. unfold createSecureServer. rewrite Hp.
  assert (Hr : (n <? 0) || (65535 <? n) = false).
  { apply orb_false_iff. split; [apply Z.ltb_ge | apply Z.ltb_ge]; lia. }
  rewrite Hr. unfold getHttpsOptions, https_createServer.
  destruct (loadCertificates w) as [t [e|c]]; cbn.
  - reflexivity.
  - destruct (w_tls_refuses w (key c) (cert c)) as [e|]; cbn.
    + rewrite !app_nil_r. reflexivity.
    + rewrite !app_nil_r. reflexivity.
Qed.

Lemma createSecureServer_invalid w port :
  match parseInt (port_text port) with
  | Some n => n < 0 \/ 65535 < n
  | None => True
  end ->
  createSecureServer w port = ([], inl (invalid_port port)).
Proof.
  unfold createSecureServer. destruct (parseInt (port_text port)) as [n|]; [|reflexivity].
  intros H.
  assert (Hr : (n <? 0) || (65535 <? n) = true).
  { apply orb_true_iff. destruct H; [left; apply Z.ltb_lt | right; apply Z.ltb_lt]; lia. }
  rewrite Hr. reflexivity.
Qed.

Lemma port_dichotomy port :
  match parseInt (port_text port) with
  | Some n => n < 0 \/ 65535 < n
  | None => True
  end \/ exists n, parseInt (port_text port) = Some n /\ 0 <= n <= 65535.
Proof.
  destruct (parseInt (port_text port)) as [n|]; [|left; exact I].
  destruct (Z_lt_dec n 0); [left; left; assumption|].
  destruct (Z_lt_dec 65535 n); [left; right; assumption|].
  right. exists n. split; [reflexivity|lia].
Qed.

(** C10: for a port argument that parses to no integer or to one outside
    0..65535, [createSecureServer] throws the "Invalid port number" error
    and performs nothing before it, so no certificate file is touched; for
    a port in range it announces the initialisation and goes on to load the
    certificates, starting with the existence test of the key file. *)
Theorem createSecureServer_port_check w port :
  (match parseInt (port_text port) with
   | Some n => n < 0 \/ 65535 < n
   | None => True
   end ->
   createSecureServer w port =
     ([], inl (Error (lit "Invalid port number: " ++ port_text port ++
                      lit ". Port must be between 0 and 65535.")))) /\
  (forall n, parseInt (port_text port) = Some n -> 0 <= n <= 65535 ->
     exists t r,
       createSecureServer w port =
         (Console LOG (lit "Initializing HTTPS server...")
            :: ExistsSync (w_resolve w (or_else (w_env w !! "SSL_KEY_PATH"%string)
                                          (lit "./certs/server.key")))
            :: t, r)).
Proof.
  split.
  - apply createSecureServer_invalid.
  - intros n Hp Hr. rewrite (createSecureServer_run w port n Hp Hr).
    destruct (loadCertificates_run w) as [[t Ht] _]. rewrite Ht.
    destruct (outcome (loadCertificates w)) as [e|c].
    + eexists _, _. reflexivity.
    + destruct (w_tls_refuses w (key c) (cert c)); eexists _, _; reflexivity.
Qed.

(** The events of [createSecureServer]: never an exit, never the plain
    listener, and the TLS listener only when it returns a server. *)
Lemma createSecureServer_events w port e :
  In e (trace (createSecureServer w port)) ->
  is_exit e = false /\
  (forall p, e <> Listen Plain p) /\
  (forall err, outcome (createSecureServer w port) = inl err -> forall p, e <> Listen Tls p).
Proof.
  destruct (port_dichotomy port) as [H | [n [Hp Hr]]].
  - rewrite (createSecureServer_invalid w port H). intros [].
  - rewrite (createSecureServer_run w port n Hp Hr).
    destruct (loadCertificates_run w) as [_ [Hfs _]].
    assert (Hin : forall x, In x (trace (loadCertificates w)) ->
                  is_exit x = false /\ (forall p, x <> Listen Plain p) /\
                  (forall p, x <> Listen Tls p)).
    { intros x Hx. rewrite Forall_forall in Hfs. specialize (Hfs x).
      rewrite <- list_elem_of_In in Hx. specialize (Hfs Hx).
      destruct x; try discriminate; repeat split; intros; discriminate. }
    destruct (outcome (loadCertificates w)) as [e0|c];
      [|destruct (w_tls_refuses w (key c) (cert c)) as [e0|]];
      cbn [trace outcome fst snd];
      intros [<- | Hx]; try (repeat split; intros; discriminate);
      apply in_app_or in Hx; destruct Hx as [Hx | [<- | []]];
      try (destruct (Hin e Hx) as [? [? ?]]; repeat split; auto; fail);
      repeat split; intros; discriminate.
Qed.

Lemma unusable_throws w port :
  unusable w (key_path w) \/ unusable w (cert_path w) ->
  exists err, outcome (createSecureServer w port) = inl err.
Proof.
  intros H. destruct (port_dichotomy port) as [Hi | [n [Hp Hr]]].
  - rewrite (createSecureServer_invalid w port Hi). eauto.
  - rewrite (createSecureServer_run w port n Hp Hr).
    destruct (loadCertificates_run w) as [_ [_ Hth]].
    destruct (Hth H) as [e He]. rewrite He. eauto.
Qed.

Lemma https_failed_run e : https_failed e = (failure_report e, inr None).
Proof. reflexivity. Qed.

Lemma summary_run w :
  outcome (summary w) = inr tt /\
  Forall (fun e => is_console e = true) (trace (summary w)).
Proof.
  unfold summary, log, emit, mbind, M_bind, mret, M_ret, trace, outcome.
  destruct (ENABLE_HTTPS w); cbn; split; try reflexivity; repeat constructor.
Qed.

Lemma start_https_failed w e :
  ENABLE_HTTPS w = true ->
  outcome (createSecureServer w (HTTPS_PORT w)) = inl e ->
  start_https w = (trace (createSecureServer w (HTTPS_PORT w)) ++ failure_report e, inr None).
Proof.
  intros Hen Hout. unfold start_https. rewrite Hen.
  destruct (createSecureServer w (HTTPS_PORT w)) as [t [e'|s]]; cbn in Hout; [|discriminate].
  injection Hout as ->. reflexivity.
Qed.

(** C5: with HTTPS enabled and the plain listener started, unusable
    certificate files (missing, unreadable or empty) make
    [createSecureServer] throw, and whenever it throws start-up still
    completes: no exception leaves it, [httpsServer] stays null, the plain
    listener is listening, the failure is logged with the troubleshooting
    steps and the notice that HTTP continues, the TLS listener is never
    started, and the process never exits. *)
Theorem tls_failure_not_fatal w :
  ENABLE_HTTPS w = true ->
  w_listen_refuses w (PORT w) = None ->
  (unusable w (key_path w) \/ unusable w (cert_path w) ->
   exists e, outcome (createSecureServer w (HTTPS_PORT w)) = inl e) /\
  (forall e, outcome (createSecureServer w (HTTPS_PORT w)) = inl e ->
     outcome (startup w) = inr None /\
     (exists before after,
        trace (startup w) =
          Listen Plain (PORT w) :: before ++
          [Console ERROR (lit "Failed to start HTTPS server: " ++ emessage e);
           Console ERROR [];
           Console ERROR (lit "Troubleshooting steps:");
           Console ERROR (lit "1. Ensure SSL certificate files exist at configured paths");
           Console ERROR (lit "2. Verify SSL_KEY_PATH and SSL_CERT_PATH environment variables");
           Console ERROR (lit "3. Check file permissions on certificate files");
           Console ERROR (lit "4. For development, generate self-signed certificates");
           Console ERROR [];
           Console ERROR (lit "HTTP server will continue running without HTTPS.");
           Console ERROR (lit "Set ENABLE_HTTPS=false to suppress this message.")]
          ++ after) /\
     (forall x, In x (trace (startup w)) ->
        is_exit x = false /\ forall p, x <> Listen Tls p)).
Proof.
  intros Hen Hlisten. split; [apply unusable_throws|].
  intros e Hout.
  assert (Hrun : startup w =
            (Listen Plain (PORT w) ::
               (trace (createSecureServer w (HTTPS_PORT w)) ++ failure_report e)
               ++ trace (summary w), inr None)).
  { unfold startup, listen_plain. rewrite Hlisten, (start_https_failed w e Hen Hout).
    destruct (summary_run w) as [Hs _].
    destruct (summary w) as [ts [es|[]]]; cbn in Hs; [discriminate|].
    cbn. rewrite ?app_nil_r. reflexivity. }
  rewrite Hrun. cbn [outcome trace fst snd]. split; [reflexivity|]. split.
  - exists (trace (createSecureServer w (HTTPS_PORT w))), (trace (summary w)).
    rewrite <- app_assoc. reflexivity.
  - intros x [<- | Hx]; [split; [reflexivity | intros; discriminate]|].
    apply in_app_or in Hx. destruct Hx as [Hx | Hx].
    + apply in_app_or in Hx. destruct Hx as [Hx | Hx].
      * destruct (createSecureServer_events w (HTTPS_PORT w) x Hx) as [H1 [_ H3]].
        split; [exact H1 | exact (H3 e Hout)].
      * unfold failure_report in Hx. cbn in Hx.
        repeat (destruct Hx as [<- | Hx]; [split; [reflexivity | intros; discriminate]|]).
        destruct Hx.
    + destruct (summary_run w) as [_ Hs]. rewrite Forall_forall in Hs.
      rewrite <- list_elem_of_In in Hx. specialize (Hs x Hx).
      destruct x; try discriminate. split; [reflexivity | intros; discriminate].
Qed.

Lemma tls_failure_not_fatal_witness :
  ENABLE_HTTPS no_certificates = true /\
  w_listen_refuses no_certificates (PORT no_certificates) = None /\
  outcome (createSecureServer no_certificates (HTTPS_PORT no_certificates))
    = inl key_not_found /\
  outcome (startup no_certificates) = inr None.
Proof.
  split; [vm_compute; reflexivity|]. split; [reflexivity|].
  split; [vm_compute; reflexivity|].
  apply (tls_failure_not_fatal no_certificates) with (e := key_not_found).
  - vm_compute. reflexivity.
  - reflexivity.
  - vm_compute. reflexivity.
Defined.

Lemma createSecureServer_port_check_witness :
  createSecureServer no_certificates (PortString (lit "70000")) =
    ([], inl (Error (lit "Invalid port number: " ++ lit "70000" ++
                     lit ". Port must be between 0 and 65535."))).
Proof.
  apply (createSecureServer_port_check no_certificates (PortString (lit "70000"))).
  vm_compute. right. reflexivity.
Defined.

End Tls.

(** ** Graceful shutdown *)

Section Shutdown.

Import Https.

Lemma run_exited code cs : Server.run (Server.Exited code) cs = ([], Server.Exited code).
Proof.
  induction cs as [|c cs IH]; cbn; [reflexivity|]. rewrite IH. reflexivity.
Qed.

Lemma run_app p cs cs' :
  snd (Server.run p (cs ++ cs')) = snd (Server.run (snd (Server.run p cs)) cs').
Proof.
  revert p. induction cs as [|c cs IH]; intros p; cbn; [reflexivity|].
  destruct (Server.on_callback p c) as [t p'].
  specialize (IH p').
  destruct (Server.run p' (cs ++ cs')) as [t1 p1], (Server.run p' cs) as [t2 p2].
  cbn in *. exact IH.
Qed.

(** Without the timer, the flags only record which listeners reported, and
    the process exits with 0 as soon as both are set. *)
Lemma run_flags f cs :
  timed_out cs = false ->
  Server.httpClosed f && Server.httpsClosed f = false ->
  snd (Server.run (Server.Running f) cs) =
    if (Server.httpClosed f || reported Plain cs) && (Server.httpsClosed f || reported Tls cs)
    then Server.Exited 0
    else Server.Running {| Server.httpClosed := Server.httpClosed f || reported Plain cs;
                           Server.httpsClosed := Server.httpsClosed f || reported Tls cs |}.
Proof.
  revert f. induction cs as [|c cs IH]; intros [h s] Ht Hf; cbn in Hf |- *.
  - rewrite !orb_false_r, Hf. reflexivity.
  - destruct c as [[|] err|]; [| |discriminate]; cbn in Ht |- *;
      unfold Server.checkAndExit; destruct h, s; try discriminate; cbn;
      first
        [ rewrite run_exited; reflexivity
        | match goal with
          | |- context [Server.run (Server.Running ?f) cs] =>
              specialize (IH f Ht eq_refl);
              destruct (Server.run (Server.Running f) cs) as [t p];
              cbn in *; exact IH
          end ].
Qed.

(** X3, server.js: on a signal, [close] is called on the plain listener and on
    the TLS listener if there is one, and the 10-second timer is set; as
    long as the timer has not fired the process has exited, with code 0,
    exactly when every active listener has reported closed; and when the
    timer fires before that, it exits with code 1. *)
Theorem graceful_shutdown (httpsServer : option server) (signal : jsstring)
    (cs : list callback) :
  let all_closed :=
    reported Plain cs && (negb (bool_decide (is_Some httpsServer)) || reported Tls cs) in
  In (Close Plain) (fst (Server.gracefulShutdown httpsServer signal)) /\
  (is_Some httpsServer -> In (Close Tls) (fst (Server.gracefulShutdown httpsServer signal))) /\
  In (SetTimeout 10000) (fst (Server.gracefulShutdown httpsServer signal)) /\
  (timed_out cs = false ->
   all_closed = true ->
   snd (Server.shutdown httpsServer signal cs) = Server.Exited 0) /\
  (timed_out cs = false ->
   all_closed = false ->
   (exists f, snd (Server.shutdown httpsServer signal cs) = Server.Running f) /\
   snd (Server.shutdown httpsServer signal (cs ++ [Timeout])) = Server.Exited 1).
Proof.
  cbn zeta.
  assert (Hrun : forall l, snd (Server.shutdown httpsServer signal l) =
            snd (Server.run (Server.Running
                   {| Server.httpClosed := false;
                      Server.httpsClosed := negb (bool_decide (is_Some httpsServer)) |}) l)).
  { intros l. unfold Server.shutdown, Server.gracefulShutdown.
    destruct (Server.run _ l). reflexivity. }
  repeat split.
  - cbn. auto.
  - intros [srv ->]. cbn. auto 6.
  - unfold Server.gracefulShutdown. cbn [fst]. apply in_or_app. right.
    apply in_or_app. right. left. reflexivity.
  - intros Ht Hall. rewrite Hrun, run_flags by (assumption || reflexivity).
    cbn. rewrite Hall. reflexivity.
  - rewrite Hrun, run_flags by (assumption || reflexivity). cbn. rewrite H0. eauto.
  - rewrite Hrun, run_app, run_flags by (assumption || reflexivity).
    cbn. rewrite H0. reflexivity.
Qed.

Lemma graceful_shutdown_witness :
  snd (Server.shutdown None (lit "SIGTERM") [Closed Plain None]) = Server.Exited 0.
Proof.
  destruct (graceful_shutdown None (lit "SIGTERM") [Closed Plain None]) as [_ [_ [_ [H _]]]].
  apply H; reflexivity.
Defined.

(** C6 (the code at the failing input): in the second server module, with
    a TLS listener active, the signal handler calls [close] on the plain
    listener only; the TLS listener is closed when the plain listener has
    reported closed, and when the timer fires first the process exits with
    code 1 without [close] ever being called on it.  server.js calls
    [close] on both at once. *)
Theorem alt_shutdown_defers_tls (srv : server) (signal : jsstring) (err : option sys_error) :
  fst (ServerAlt.gracefulShutdown signal) =
    [Console LOG ([10%N] ++ lit "Received " ++ signal ++ lit ". Starting graceful shutdown...");
     Close Plain; SetTimeout 10000] /\
  ~ In (Close Tls) (fst (ServerAlt.shutdown (Some srv) signal [Timeout])) /\
  snd (ServerAlt.shutdown (Some srv) signal [Timeout]) = ServerAlt.Exited 1 /\
  In (Close Tls) (fst (ServerAlt.shutdown (Some srv) signal [Closed Plain err])) /\
  snd (ServerAlt.shutdown (Some srv) signal [Closed Plain err]) = ServerAlt.Running ServerAlt.WaitingTls /\
  snd (ServerAlt.shutdown (Some srv) signal [Closed Plain err; Closed Tls err]) = ServerAlt.Exited 0 /\
  snd (ServerAlt.shutdown None signal [Closed Plain err]) = ServerAlt.Exited 0 /\
  In (Close Tls) (fst (Server.gracefulShutdown (Some srv) signal)).
Proof.
  repeat split; try reflexivity.
  - cbn. intros H. repeat (destruct H as [H|H]; [discriminate|]). destruct H.
  - cbn. auto 8.
  - cbn. auto 8.
Qed.

End Shutdown.

(** ** Numbers written in decimal *)

Section Numbers.

Import RateLimiter Https.

Lemma digits_acc (d : Decimal.uint) (acc : positive) :
  digits_prefix (lit (NilEmpty.string_of_uint d)) (Z.pos acc) true
  = Some (Z.pos (Pos.of_uint_acc d acc)).
Proof.
  revert acc. induction d; intros acc; cbn; try reflexivity;
    rewrite <- IHd; f_equal; unfold digit_value; lia.
Qed.

Lemma digits_zero (d : Decimal.uint) :
  digits_prefix (lit (NilEmpty.string_of_uint d)) 0 true = Some (Z.of_N (Pos.of_uint d)).
Proof.
  induction d; cbn; try reflexivity; try exact IHd; apply digits_acc.
Qed.

Lemma digits_start (d : Decimal.uint) :
  d <> Decimal.Nil ->
  parseInt (lit (NilEmpty.string_of_uint d)) = Some (Z.of_N (Pos.of_uint d)) /\
  digits_prefix (lit (NilEmpty.string_of_uint d)) 0 false = Some (Z.of_N (Pos.of_uint d)).
Proof.
  intros Hd. destruct d; try contradiction;
    (split; [unfold parseInt|]; cbn; first [apply digits_zero | apply digits_acc]).
Qed.

(** [parseInt(String(n), 10)] is [n], for a safe integer. *)
Lemma parseInt_show (z : Z) : safe_integer z -> parseInt (show z) = Some z.
Proof.
  intros _. unfold show. destruct z as [|p|p]; cbn [Z.to_int NilZero.string_of_int].
  - reflexivity.
  - unfold NilZero.string_of_uint.
    pose proof (DecimalPos.Unsigned.to_uint_nonnil p) as Hn.
    destruct (Pos.to_uint p) eqn:E; try contradiction;
      rewrite <- E in *; (destruct (digits_start (Pos.to_uint p) Hn) as [H _]);
      rewrite E in H at 1; rewrite E; rewrite H, DecimalPos.Unsigned.of_to; reflexivity.
  - unfold NilZero.string_of_uint.
    pose proof (DecimalPos.Unsigned.to_uint_nonnil p) as Hn.
    assert (Hs : lit (String "-" (match Pos.to_uint p with
                                  | Decimal.Nil => "0"%string
                                  | _ => NilEmpty.string_of_uint (Pos.to_uint p)
                                  end))
                 = 45%N :: lit (NilEmpty.string_of_uint (Pos.to_uint p))).
    { destruct (Pos.to_uint p); try contradiction; reflexivity. }
    rewrite Hs. unfold parseInt. cbn [trimStart is_white_space].
    destruct (digits_start (Pos.to_uint p) Hn) as [_ H].
    cbn. rewrite H, DecimalPos.Unsigned.of_to. reflexivity.
Qed.

(** X4: a positive safe integer (at most 2^53 - 1) written in decimal in
    RATE_LIMIT_MAX or in RATE_LIMIT_WINDOW_MS is the limit, respectively
    the window, that the limiter is configured with. *)
Theorem rateLimiter_options_honours (env : environment) (n : Z) :
  0 < n <= MAX_SAFE_INTEGER ->
  (env !! "RATE_LIMIT_MAX"%string = Some (show n) ->
   limit (rateLimiter_options env) = n) /\
  (env !! "RATE_LIMIT_WINDOW_MS"%string = Some (show n) ->
   windowMs (rateLimiter_options env) = n).
Proof.
  intros [Hn Hmax].
  assert (Hsafe : safe_integer n) by (unfold safe_integer; lia).
  apply Z.ltb_lt in Hn.
  split; intros H; cbn [limit windowMs rateLimiter_options];
    rewrite H, parseIntWithDefault_cases, (parseInt_show n Hsafe), Hn; reflexivity.
Qed.

Lemma rateLimiter_options_honours_witness :
  limit (rateLimiter_options {[ "RATE_LIMIT_MAX"%string := show 250 ]}) = 250.
Proof.
  destruct (rateLimiter_options_honours {[ "RATE_LIMIT_MAX"%string := show 250 ]} 250) as [H _].
  - unfold MAX_SAFE_INTEGER. lia.
  - apply H. vm_compute. reflexivity.
Defined.

(** X5: for a port given as a Number that is a safe integer,
    [createSecureServer] throws the "Invalid port number" error, before any
    effect, exactly when the number is outside 0..65535; inside the range
    it goes on, and a server it returns listens on that very number.  A
    port left out (the default 443) always passes. *)
Theorem numeric_port_check (w : world) (z : Z) :
  (safe_integer z -> z < 0 \/ 65535 < z ->
   createSecureServer w (PortNumber z) =
     ([], inl (Error (lit "Invalid port number: " ++ show z ++
                      lit ". Port must be between 0 and 65535.")))) /\
  (0 <= z <= 65535 ->
   exists t r,
     createSecureServer w (PortNumber z) =
       (Console LOG (lit "Initializing HTTPS server...") :: t, r) /\
     forall s, r = inr s -> srv_port s = z) /\
  (exists t r,
     createSecureServer w PortUndefined =
       (Console LOG (lit "Initializing HTTPS server...") :: t, r) /\
     forall s, r = inr s -> srv_port s = 443).
Proof.
  assert (Hgen : forall port n, parseInt (port_text port) = Some n -> 0 <= n <= 65535 ->
            exists t r,
              createSecureServer w port =
                (Console LOG (lit "Initializing HTTPS server...") :: t, r) /\
              forall s, r = inr s -> srv_port s = n).
  { intros port n Hp Hr. rewrite (createSecureServer_run w port n Hp Hr).
    destruct (outcome (loadCertificates w)) as [e|c].
    - eexists _, _. split; [reflexivity|]. intros srv [=].
    - destruct (w_tls_refuses w (key c) (cert c)).
      + eexists _, _. split; [reflexivity|]. intros srv [=].
      + eexists _, _. split; [reflexivity|]. intros srv [= <-]. reflexivity. }
  repeat split.
  - intros Hsafe H. apply (createSecureServer_invalid w (PortNumber z)).
    cbn [port_text]. rewrite (parseInt_show z Hsafe). exact H.
  - intros H. apply (Hgen (PortNumber z) z); [|exact H].
    apply parseInt_show. unfold safe_integer, MAX_SAFE_INTEGER. lia.
  - apply (Hgen PortUndefined 443); [reflexivity | lia].
Qed.

Lemma numeric_port_check_witness :
  createSecureServer no_certificates (PortNumber 70000) =
    ([], inl (Error (lit "Invalid port number: " ++ show 70000 ++
                     lit ". Port must be between 0 and 65535."))).
Proof.
  apply (numeric_port_check no_certificates 70000).
  - unfold safe_integer, MAX_SAFE_INTEGER. lia.
  - right. lia.
Defined.

End Numbers.

(** ** Loading the certificates *)

Section Certificates.

Import Https.

#[local] Arguments lit : simpl never.

Lemma loadCertificates_unfold w :
  loadCertificates w = try_catch (read_certificates w (key_path w) (cert_path w)) rethrow.
Proof. reflexivity. Qed.

Lemma rethrow_outcome e :
  rethrow e = ([], inl (if includes (emessage e) (lit "SSL ") then e else Error (describe e))).
Proof.
  unfold rethrow, throw. destruct (includes _ _); reflexivity.
Qed.

Lemma try_rethrow t e :
  try_catch (t, inl e) rethrow =
    (t, inl (if includes (emessage e) (lit "SSL ") then e else Error (describe e))).
Proof.
  unfold try_catch. rewrite rethrow_outcome, app_nil_r. reflexivity.
Qed.

Lemma describe_mentions_ssl e : includes (emessage (Error (describe e))) (lit "SSL ") = true.
Proof. reflexivity. Qed.

Lemma loadCertificates_returned (w : world) (c : certificates) :
  (outcome (loadCertificates w) = inr c <->
   exists k bytes,
     w_fs w !! key_path w = Some (Readable k) /\ k <> [] /\
     w_fs w !! cert_path w = Some (Readable bytes) /\ bytes <> [] /\
     c = {| key := k; cert := bytes |}) /\
  (outcome (loadCertificates w) = inr c ->
   trace (loadCertificates w) =
     [ExistsSync (key_path w); ExistsSync (cert_path w);
      ReadFileSync (key_path w); ReadFileSync (cert_path w)]).
Proof.
  rewrite loadCertificates_unfold, read_certificates_run.
  destruct (w_fs w !! key_path w) as [[[|a k]|e]|], (w_fs w !! cert_path w) as [[[|b bs]|e']|];
    rewrite ?try_rethrow; cbn [outcome trace fst snd try_catch];
    (split; [split|]); try discriminate; try reflexivity.
  all: try (intros (k0 & b0 & H1 & H2 & H3 & H4 & H5); congruence).
  intros [= <-]. exists (a :: k), (b :: bs). repeat split; discriminate.
Qed.

(** X6: [loadCertificates] returns exactly when both files are there,
    readable and not empty; what it returns is the two files' contents, and
    it has then made four file-system calls: the two existence tests, then
    the two reads, key first. *)
Theorem loadCertificates_success (w : world) (c : certificates) :
  (outcome (loadCertificates w) = inr c <->
   exists k bytes,
     w_fs w !! key_path w = Some (Readable k) /\ k <> [] /\
     w_fs w !! cert_path w = Some (Readable bytes) /\ bytes <> [] /\
     c = {| key := k; cert := bytes |}) /\
  (outcome (loadCertificates w) = inr c ->
   trace (loadCertificates w) =
     [ExistsSync (key_path w); ExistsSync (cert_path w);
      ReadFileSync (key_path w); ReadFileSync (cert_path w)]).
Proof. exact (loadCertificates_returned w c). Qed.

Lemma loadCertificates_success_witness :
  outcome (loadCertificates
    {| w_env := ∅;
       w_fs := {[ lit "./certs/server.key" := Readable (lit "KEY");
                  lit "./certs/server.cert" := Readable (lit "CERT") ]};
       w_resolve := fun p => p;
       w_tls_refuses := fun _ _ => None;
       w_listen_refuses := fun _ => None |})
  = inr {| key := lit "KEY"; cert := lit "CERT" |}.
Proof.
  apply loadCertificates_success.
  exists (lit "KEY"), (lit "CERT").
  repeat split; try (vm_compute; reflexivity); vm_compute; discriminate.
Defined.

(** X7: which error [loadCertificates] throws.  A missing key is reported
    after one existence test, whatever the certificate is; a missing
    certificate after two, and no file is read unless both exist; a read
    that fails comes before the emptiness tests.  Every message thrown
    contains "SSL ".  For a failed read whose code is ENOENT, EACCES or
    EISDIR and whose own message does not contain "SSL ", the error thrown
    depends on the code alone: the system's message, and with it the path,
    is left out. *)
Theorem loadCertificates_failure (w : world) :
  (w_fs w !! key_path w = None ->
   loadCertificates w = ([ExistsSync (key_path w)], inl key_not_found)) /\
  (is_Some (w_fs w !! key_path w) -> w_fs w !! cert_path w = None ->
   loadCertificates w =
     ([ExistsSync (key_path w); ExistsSync (cert_path w)], inl cert_not_found)) /\
  (forall e, w_fs w !! key_path w = Some (Unreadable e) ->
             is_Some (w_fs w !! cert_path w) ->
             loadCertificates w =
               ([ExistsSync (key_path w); ExistsSync (cert_path w);
                 ReadFileSync (key_path w)],
                inl (if includes (emessage e) (lit "SSL ") then e else Error (describe e)))) /\
  (forall e, outcome (loadCertificates w) = inl e ->
             includes (emessage e) (lit "SSL ") = true) /\
  (forall e e', known_code e -> ecode e = ecode e' ->
                includes (emessage e) (lit "SSL ") = false ->
                includes (emessage e') (lit "SSL ") = false ->
                rethrow e = rethrow e').
Proof.
  repeat split.
  - intros Hk. rewrite loadCertificates_unfold, read_certificates_run, Hk. reflexivity.
  - intros [f Hk] Hc. rewrite loadCertificates_unfold, read_certificates_run, Hk, Hc.
    destruct f as [[|a k]|e]; reflexivity.
  - intros e Hk [f Hc]. rewrite loadCertificates_unfold, read_certificates_run, Hk, Hc.
    destruct f as [[|b bs]|e']; apply try_rethrow.
  - intros e. rewrite loadCertificates_unfold, read_certificates_run.
    destruct (w_fs w !! key_path w) as [[[|a k]|e0]|],
             (w_fs w !! cert_path w) as [[[|b bs]|e']|];
      rewrite ?try_rethrow; cbn [outcome snd try_catch]; try discriminate;
      intros [= <-]; try reflexivity;
      match goal with
      | |- context [if includes (emessage ?x) ?p then _ else _] =>
          destruct (includes (emessage x) p) eqn:E; [exact E | reflexivity]
      end.
  - intros e e' Hk Hc He He'. rewrite !rethrow_outcome, He, He'.
    do 3 f_equal. unfold describe. rewrite <- Hc.
    destruct Hk as [-> | [-> | ->]]; reflexivity.
Qed.

Lemma loadCertificates_failure_witness :
  loadCertificates no_certificates =
    ([ExistsSync (key_path no_certificates)], inl key_not_found).
Proof.
  apply (loadCertificates_failure no_certificates). reflexivity.
Defined.

(** X8: [createSecureServer] returns a server exactly when the port parses
    into 0..65535, the certificates load and [https.createServer] accepts
    them; the server then carries the loaded key and certificate and the
    minimum version TLSv1.2, and [listen] is called once, on the parsed
    port, as the last effect.  When it throws after the port check, the
    last effect is the error line with the message of the very error that
    is thrown, and [listen] was not called. *)
Theorem createSecureServer_success (w : world) (port : port_arg) :
  (forall s,
     outcome (createSecureServer w port) = inr s <->
     exists n c,
       parseInt (port_text port) = Some n /\ 0 <= n <= 65535 /\
       outcome (loadCertificates w) = inr c /\
       w_tls_refuses w (key c) (cert c) = None /\
       s = {| srv_options := {| opt_key := key c; opt_cert := cert c;
                                minVersion := lit "TLSv1.2" |};
              srv_port := n |}) /\
  (forall s, outcome (createSecureServer w port) = inr s ->
     trace (createSecureServer w port) =
       [Console LOG (lit "Initializing HTTPS server...");
        ExistsSync (key_path w); ExistsSync (cert_path w);
        ReadFileSync (key_path w); ReadFileSync (cert_path w);
        Listen Tls (show (srv_port s))]) /\
  (forall n e, parseInt (port_text port) = Some n -> 0 <= n <= 65535 ->
     outcome (createSecureServer w port) = inl e ->
     trace (createSecureServer w port) =
       Console LOG (lit "Initializing HTTPS server...") :: trace (loadCertificates w) ++
       [Console ERROR (lit "Failed to create HTTPS server: " ++ emessage e)]).
Proof.
  destruct (port_dichotomy port) as [Hbad | [n [Hp Hr]]].
  - rewrite (createSecureServer_invalid w port Hbad). cbn [outcome trace fst snd].
    repeat split; try discriminate.
    + intros (n & c & Hp & Hr & _). rewrite Hp in Hbad. lia.
    + intros n e Hp Hr. rewrite Hp in Hbad. lia.
  - rewrite (createSecureServer_run w port n Hp Hr).
    destruct (outcome (loadCertificates w)) as [e|c] eqn:Hload.
    + cbn [outcome trace fst snd]. repeat split; try discriminate.
      * intros (n' & c' & _ & _ & [=] & _).
      * intros n' e' _ _ [= <-]. reflexivity.
    + destruct (loadCertificates_returned w c) as [_ Htrace]. specialize (Htrace Hload).
      destruct (w_tls_refuses w (key c) (cert c)) as [e|] eqn:Htls;
        cbn [outcome trace fst snd]; (split; [intros s; split | split]).
      * discriminate.
      * intros (n' & c' & _ & _ & Hc & Hno & _).
        injection Hc as <-. congruence.
      * discriminate.
      * intros n' e' _ _ [= <-]. reflexivity.
      * intros [= <-]. exists n, c. repeat split; try assumption; lia.
      * intros (n' & c' & Hp' & _ & Hc & _ & ->).
        injection Hc as <-. rewrite Hp in Hp'. injection Hp' as <-. reflexivity.
      * intros s [= <-]. rewrite Htrace. reflexivity.
      * discriminate.
Qed.

Lemma createSecureServer_success_witness :
  outcome (createSecureServer
    {| w_env := ∅;
       w_fs := {[ lit "./certs/server.key" := Readable (lit "KEY");
                  lit "./certs/server.cert" := Readable (lit "CERT") ]};
       w_resolve := fun p => p;
       w_tls_refuses := fun _ _ => None;
       w_listen_refuses := fun _ => None |} (PortString (lit "8443")))
  = inr {| srv_options := {| opt_key := lit "KEY"; opt_cert := lit "CERT";
                             minVersion := lit "TLSv1.2" |};
           srv_port := 8443 |}.
Proof.
  apply createSecureServer_success.
  exists 8443, {| key := lit "KEY"; cert := lit "CERT" |}.
  repeat split; try (vm_compute; reflexivity); vm_compute; discriminate.
Defined.

End Certificates.

(** ** The whitelist, entry by entry *)

Section Whitelist.

Import Security.

Lemma jseqb_eq (a b : jsstring) : jseqb a b = true <-> a = b.
Proof. unfold jseqb. apply bool_decide_eq_true. Qed.

Lemma isOriginAllowed_In (o : jsstring) (allowed : list jsstring) :
  isOriginAllowed o allowed = true <-> In o allowed.
Proof.
  unfold isOriginAllowed. rewrite existsb_exists. split.
  - intros [x [Hin Hx]]. apply jseqb_eq in Hx. subst. exact Hin.
  - intros Hin. exists o. split; [exact Hin | apply jseqb_eq; reflexivity].
Qed.

Lemma parsed_In (s o : jsstring) :
  In o (List.filter (fun origin => (0 <? Z.of_nat (List.length origin)))
          (List.map (fun origin => trim origin) (split 44 s)))
  <-> o <> [] /\ exists piece, In piece (split 44 s) /\ trim piece = o.
Proof.
  rewrite filter_In, in_map_iff. split.
  - intros [[piece [Ht Hin]] Hlen]. split; [|exists piece; auto].
    intros ->. discriminate.
  - intros [Hne [piece [Hin Ht]]]. split; [exists piece; auto|].
    destruct o; [contradiction|reflexivity].
Qed.

(** X9: with ALLOWED_ORIGINS set to a non-empty value, an origin is allowed
    exactly when it is not empty and equals, after trimming, one of the
    comma-separated pieces of the value; with the variable unset or empty,
    exactly the two localhost origins are allowed.  [getCorsOptions] tests
    against the environment of the call, whatever [corsOptions] was built
    from, and changes no other option. *)
Theorem origin_allowed_iff (loaded env : environment) (o : jsstring) :
  (forall s, env !! "ALLOWED_ORIGINS"%string = Some s -> s <> [] ->
     (isOriginAllowed o (origin (corsOptions env)) = true <->
      o <> [] /\ exists piece, In piece (split 44 s) /\ trim piece = o)) /\
  (env !! "ALLOWED_ORIGINS"%string = None \/ env !! "ALLOWED_ORIGINS"%string = Some [] ->
     (isOriginAllowed o (origin (corsOptions env)) = true <->
      o = lit "http://localhost:3000" \/ o = lit "http://localhost:8080")) /\
  getCorsOptions loaded env = corsOptions env.
Proof.
  unfold getCorsOptions, corsOptions; cbn [origin methods allowedHeaders credentials maxAge
                                             optionsSuccessStatus].
  split; [|split; [|reflexivity]].
  - intros s Hs Hne. rewrite isOriginAllowed_In. unfold parseAllowedOrigins. rewrite Hs.
    destruct s as [|c s]; [contradiction|]. apply parsed_In.
  - intros H. rewrite isOriginAllowed_In. unfold parseAllowedOrigins.
    destruct H as [-> | ->]; cbn; intuition congruence.
Qed.

Lemma origin_allowed_iff_witness :
  isOriginAllowed (lit "https://a.example")
    (origin (corsOptions {[ "ALLOWED_ORIGINS"%string := lit " https://a.example , https://b.example" ]}))
  = true.
Proof.
  destruct (origin_allowed_iff ∅
              {[ "ALLOWED_ORIGINS"%string := lit " https://a.example , https://b.example" ]}
              (lit "https://a.example")) as [H _].
  apply (H (lit " https://a.example , https://b.example")).
  - vm_compute. reflexivity.
  - discriminate.
  - split; [discriminate|]. exists (lit " https://a.example ").
    split; [vm_compute; auto | vm_compute; reflexivity].
Defined.

Lemma trimStart_id (s : jsstring) :
  (forall c, head s = Some c -> is_white_space c = false) -> trimStart s = s.
Proof.
  destruct s as [|c s]; [reflexivity|]. intros H. cbn.
  rewrite (H c eq_refl). reflexivity.
Qed.

Lemma trimEnd_id (s : jsstring) :
  (forall c, last s = Some c -> is_white_space c = false) -> trimEnd s = s.
Proof.
  induction s as [|c s IH]; [reflexivity|]. intros H.
  destruct s as [|d s].
  - cbn. rewrite (H c eq_refl). reflexivity.
  - assert (Hs : trimEnd (d :: s) = d :: s) by (apply IH; intros x Hx; apply H; exact Hx).
    change (trimEnd (c :: d :: s))
      with (match trimEnd (d :: s) with
            | [] => if is_white_space c then [] else [c]
            | r => c :: r
            end).
    rewrite Hs. reflexivity.
Qed.

Lemma trim_id (s : jsstring) : trimmed s -> trim s = s.
Proof.
  intros [Hh Hl]. unfold trim. rewrite (trimStart_id s Hh). apply trimEnd_id, Hl.
Qed.

Lemma split_piece (p r : jsstring) :
  ~ In 44%N p ->
  split 44 (p ++ 44%N :: r) = p :: split 44 r /\ split 44 p = [p].
Proof.
  induction p as [|c p IH]; intros Hp.
  - split; reflexivity.
  - assert (Hc : (c =? 44)%N = false).
    { apply N.eqb_neq. intros ->. apply Hp. left. reflexivity. }
    destruct IH as [IH1 IH2]; [intros H; apply Hp; right; exact H|].
    split; cbn; rewrite Hc; [rewrite IH1 | rewrite IH2]; reflexivity.
Qed.

Lemma split_join (os : list jsstring) :
  os <> [] -> Forall (fun o => ~ In 44%N o) os -> split 44 (join 44 os) = os.
Proof.
  induction os as [|o os IH]; [contradiction|]. intros _ Hall.
  inversion Hall as [|? ? Ho Hos]; subst.
  destruct os as [|o' os].
  - cbn. exact (proj2 (split_piece o [] Ho)).
  - change (join 44 (o :: o' :: os)) with (o ++ 44%N :: join 44 (o' :: os)).
    destruct (split_piece o (join 44 (o' :: os)) Ho) as [-> _].
    rewrite IH; [reflexivity | discriminate | exact Hos].
Qed.

(** X10: a list of origins written out with commas is read back as it
    is: for origins that are not empty, hold no comma and have no white
    space at either end, ALLOWED_ORIGINS set to their comma-joined text
    gives exactly that whitelist, in the same order, duplicates kept. *)
Theorem parseAllowedOrigins_join (env : environment) (os : list jsstring) :
  os <> [] ->
  Forall plain_origin os ->
  env !! "ALLOWED_ORIGINS"%string = Some (join 44 os) ->
  parseAllowedOrigins env = os.
Proof.
  intros Hne Hall Henv. unfold parseAllowedOrigins. rewrite Henv.
  assert (Hcomma : Forall (fun o => ~ In 44%N o) os).
  { eapply Forall_impl; [exact Hall|]. intros o (_ & H & _). exact H. }
  assert (Hjoin : join 44 os <> []).
  { destruct os as [|o os]; [contradiction|].
    inversion Hall as [|? ? [Ho _] _]; subst.
    destruct o as [|c o]; [contradiction|]. destruct os; discriminate. }
  destruct (join 44 os) as [|c s] eqn:E; [contradiction|].
  rewrite <- E, (split_join os Hne Hcomma).
  clear -Hall. induction Hall as [|o os [Ho [_ Ht]] _ IH]; [reflexivity|].
  cbn. rewrite (trim_id o Ht). destruct o; [contradiction|]. cbn. rewrite IH. reflexivity.
Qed.

Lemma parseAllowedOrigins_join_witness :
  parseAllowedOrigins
    {[ "ALLOWED_ORIGINS"%string := join 44 [lit "https://a.example"; lit "https://b.example"] ]}
  = [lit "https://a.example"; lit "https://b.example"].
Proof.
  apply parseAllowedOrigins_join.
  - discriminate.
  - repeat constructor; try discriminate; try (vm_compute; intuition discriminate);
      vm_compute; intros c [= <-]; reflexivity.
  - vm_compute. reflexivity.
Defined.

End Whitelist.

(** ** The limiters' thresholds and the effects of a request *)

Section Requests.

Import RateLimiter App.

(** X11: whatever the environment holds, the application's limiter admits
    a client's first request of a window; the strict limiter admits exactly
    the counts up to 5; a limiter made by [createRateLimiter] admits exactly
    the counts up to the limit it was given (100 when none was given), with
    no validation of that limit, so that a limit of 0 rejects every request;
    and a limiter that rejects at one count rejects at every higher one. *)
Theorem limiter_thresholds (env : environment) (hits : jsstring -> Z) (req : request) :
  (hits (keyGenerator req) <= 1 ->
   rateLimit (rateLimiter_options env) handler hits req = None) /\
  (rateLimit strictRateLimiter_options strict_handler hits req = None <->
   hits (keyGenerator req) <= 5) /\
  (forall w l m ss sf,
     rateLimit (createRateLimiter_options w l m ss sf) custom_handler hits req = None <->
     hits (keyGenerator req) <= default 100 l) /\
  (forall w m ss sf, 1 <= hits (keyGenerator req) ->
     rateLimit (createRateLimiter_options w (Some 0) m ss sf) custom_handler hits req <> None) /\
  (forall opts h hits',
     hits (keyGenerator req) <= hits' (keyGenerator req) ->
     rateLimit opts h hits req <> None -> rateLimit opts h hits' req <> None).
Proof.
  assert (Hnone : forall opts h f,
            rateLimit opts h f req = None <-> f (keyGenerator req) <= limit opts).
  { intros opts h f. unfold rateLimit.
    destruct (Z.ltb_spec (limit opts) (f (keyGenerator req))); split;
      try discriminate; try reflexivity; lia. }
  repeat split.
  - intros H. apply Hnone.
    pose proof (parseIntWithDefault_positive (env !! "RATE_LIMIT_MAX"%string)
                  DEFAULT_MAX_REQUESTS eq_refl) as Hpos.
    cbn [limit rateLimiter_options]. lia.
  - intros H. apply Hnone in H. exact H.
  - intros H. apply Hnone. exact H.
  - intros H. apply Hnone in H. exact H.
  - intros H. apply Hnone. exact H.
  - intros w m ss sf H Hn. apply Hnone in Hn. cbn in Hn. lia.
  - intros opts h hits' Hle Hrej Hn. apply Hrej. apply Hnone. apply Hnone in Hn. lia.
Qed.

Lemma limiter_thresholds_witness :
  rateLimit (rateLimiter_options {[ "RATE_LIMIT_MAX"%string := lit "1" ]}) handler
    (fun _ => 1) (direct GET "/") = None.
Proof.
  destruct (limiter_thresholds {[ "RATE_LIMIT_MAX"%string := lit "1" ]} (fun _ => 1)
              (direct GET "/")) as [H _].
  apply H. reflexivity.
Defined.



End Requests.

(** ** Start-up, case by case *)

Section Startup.

Import Https.

#[local] Arguments lit : simpl never.

Lemma no_exit_console (t : list event) :
  Forall (fun e => is_console e = true) t ->
  forall x, In x t -> is_exit x = false /\ is_fs x = false /\ forall s p, x <> Listen s p.
Proof.
  intros H x Hx. rewrite Forall_forall in H. rewrite <- list_elem_of_In in Hx.
  specialize (H x Hx). destruct x; try discriminate.
  repeat split; intros; discriminate.
Qed.

Lemma server_start_https_run (w : world) :
  Server.start_https w =
    if Server.ENABLE_HTTPS w then
      match createSecureServer w (Server.HTTPS_PORT w) with
      | (t, inl e) => (t ++ failure_report e, inr None)
      | (t, inr s) =>
          (t ++ [Console LOG (lit "HTTPS Server running on port " ++
                              port_text (Server.HTTPS_PORT w));
                 Console LOG (lit "TLS encryption enabled with minimum TLS 1.2")]
             ++ (if Server.not_production w
                 then [Console LOG (lit "Secure access: https://localhost:" ++
                                    port_text (Server.HTTPS_PORT w) ++ lit "/");
                       Console LOG (lit "Note: Browser may show certificate warning for self-signed certs")]
                 else []),
           inr (Some s))
      end
    else ([Console LOG (lit "HTTPS disabled. Set ENABLE_HTTPS=true to enable secure server.")],
          inr None).
Proof.
  unfold Server.start_https. destruct (Server.ENABLE_HTTPS w); [|reflexivity].
  destruct (createSecureServer w (Server.HTTPS_PORT w)) as [t [e|s]]; [reflexivity|].
  destruct (Server.not_production w); cbn; rewrite ?app_nil_r; reflexivity.
Qed.

Lemma server_startup_run (w : world) :
  w_listen_refuses w (Server.PORT w) = None ->
  Server.startup w =
    (Listen Plain (Server.PORT w) :: trace (Server.start_https w) ++ trace (Server.summary w),
     outcome (Server.start_https w)).
Proof.
  intros Hl. unfold Server.startup, Server.listen_plain. rewrite Hl.
  destruct (summary_run w) as [Hs _].
  assert (Hok : exists r, outcome (Server.start_https w) = inr r).
  { rewrite server_start_https_run.
    destruct (Server.ENABLE_HTTPS w); [|eexists; reflexivity].
    destruct (createSecureServer w (Server.HTTPS_PORT w)) as [t [e|s]]; eexists; reflexivity. }
  destruct Hok as [r Hr].
  destruct (Server.start_https w) as [t1 [e1|r1]]; cbn in Hr; [discriminate|].
  destruct (Server.summary w) as [t2 [e2|[]]]; cbn in Hs; [discriminate|].
  cbn. rewrite ?app_nil_r. reflexivity.
Qed.

(** X13, server.js: when [app.listen] throws, start-up ends there with
    that exception and nothing else has happened.  Otherwise start-up
    completes and never exits; HTTPS is attempted exactly when ENABLE_HTTPS
    is the string "true"; without it no certificate file is touched and no
    TLS listener is started; and [httpsServer] is a server exactly when
    HTTPS is enabled and [createSecureServer] returned that server. *)
Theorem server_startup_cases (w : world) :
  (forall e, w_listen_refuses w (Server.PORT w) = Some e ->
             Server.startup w = ([], inl e)) /\
  (w_listen_refuses w (Server.PORT w) = None ->
   (exists r, outcome (Server.startup w) = inr r) /\
   (forall x, In x (trace (Server.startup w)) -> is_exit x = false) /\
   (Server.ENABLE_HTTPS w = true <->
    w_env w !! "ENABLE_HTTPS"%string = Some (lit "true")) /\
   (Server.ENABLE_HTTPS w = false ->
    outcome (Server.startup w) = inr None /\
    forall x, In x (trace (Server.startup w)) ->
              is_fs x = false /\ forall p, x <> Listen Tls p) /\
   (forall s, outcome (Server.startup w) = inr (Some s) <->
              Server.ENABLE_HTTPS w = true /\
              outcome (createSecureServer w (Server.HTTPS_PORT w)) = inr s)).
Proof.
  split.
  - intros e He. unfold Server.startup, Server.listen_plain. rewrite He. reflexivity.
  - intros Hl. rewrite (server_startup_run w Hl). cbn [outcome trace fst snd].
    destruct (summary_run w) as [_ Hsum].
    pose proof (no_exit_console _ Hsum) as Hsum'.
    rewrite server_start_https_run.
    assert (Hiff : Server.ENABLE_HTTPS w = true <->
                   w_env w !! "ENABLE_HTTPS"%string = Some (lit "true"))
      by apply bool_decide_eq_true.
    destruct (Server.ENABLE_HTTPS w) eqn:Hen.
    + pose proof (createSecureServer_events w (Server.HTTPS_PORT w)) as Hev.
      destruct (createSecureServer w (Server.HTTPS_PORT w)) as [t [e|s]] eqn:Hc;
        cbn [trace outcome fst snd] in *.
      * split; [eauto|]. split.
        { intros x [<- | Hx]; [reflexivity|].
          apply in_app_or in Hx. destruct Hx as [Hx | Hx]; [|apply Hsum'; exact Hx].
          apply in_app_or in Hx. destruct Hx as [Hx | Hx]; [apply Hev; exact Hx|].
          unfold failure_report in Hx. cbn in Hx.
          repeat (destruct Hx as [<- | Hx]; [reflexivity|]). destruct Hx. }
        split; [split; [intros _; apply Hiff; reflexivity | reflexivity]|].
        split; [discriminate|].
        intros s. split; [discriminate | intros [_ [=]]].
      * split; [eauto|]. split.
        { intros x [<- | Hx]; [reflexivity|].
          apply in_app_or in Hx. destruct Hx as [Hx | Hx]; [|apply Hsum'; exact Hx].
          apply in_app_or in Hx. destruct Hx as [Hx | Hx]; [apply Hev; exact Hx|].
          apply in_app_or in Hx. destruct Hx as [Hx | Hx].
          - cbn in Hx. repeat (destruct Hx as [<- | Hx]; [reflexivity|]). destruct Hx.
          - destruct (Server.not_production w); cbn in Hx;
              repeat (destruct Hx as [<- | Hx]; [reflexivity|]); destruct Hx. }
        split; [split; [intros _; apply Hiff; reflexivity | reflexivity]|].
        split; [discriminate|].
        intros s'. split; [intros [= <-]; auto | intros [_ [= <-]]; reflexivity].
    + cbn [trace outcome fst snd]. split; [eauto|]. split.
      { intros x [<- | [<- | Hx]]; [reflexivity | reflexivity | apply Hsum'; exact Hx]. }
      split; [split; [discriminate | intros HP; apply Hiff in HP; discriminate]|].
      split.
      * intros _. split; [reflexivity|].
        intros x [<- | [<- | Hx]];
          [split; [reflexivity | discriminate] | split; [reflexivity | discriminate] |].
        destruct (Hsum' x Hx) as (_ & Hfs & Hl'). split; [exact Hfs | intros p; apply Hl'].
      * intros s. split; [discriminate | intros [[=] _]].
Qed.

Lemma server_startup_cases_witness :
  outcome (Server.startup
    {| w_env := {[ "ENABLE_HTTPS"%string := lit "TRUE" ]};
       w_fs := ∅;
       w_resolve := fun p => p;
       w_tls_refuses := fun _ _ => None;
       w_listen_refuses := fun _ => None |}) = inr None.
Proof.
  destruct (server_startup_cases
    {| w_env := {[ "ENABLE_HTTPS"%string := lit "TRUE" ]};
       w_fs := ∅;
       w_resolve := fun p => p;
       w_tls_refuses := fun _ _ => None;
       w_listen_refuses := fun _ => None |}) as [_ H].
  destruct (H eq_refl) as (_ & _ & _ & Hoff & _).
  apply Hoff. vm_compute. reflexivity.
Defined.

End Startup.

(** ** The second server module's start-up *)

Section AltStartup.

Import Https.

#[local] Arguments lit : simpl never.

Lemma alt_start_https_run (w : world) :
  ServerAlt.start_https w =
    if ServerAlt.enableHttps w then
      match createSecureServer w (PortNumber (ServerAlt.httpsPort w)) with
      | (t, inl e) => (t ++ alt_failure_report e, inr None)
      | (t, inr s) =>
          (t ++ [Console LOG (lit "HTTPS Server running on port " ++
                              show (ServerAlt.httpsPort w));
                 Console LOG (lit "TLS encryption enabled")],
           inr (Some s))
      end
    else ([], inr None).
Proof.
  unfold ServerAlt.start_https. destruct (ServerAlt.enableHttps w); [|reflexivity].
  destruct (createSecureServer w (PortNumber (ServerAlt.httpsPort w))) as [t [e|s]];
    [reflexivity|]. cbn. rewrite ?app_nil_r. reflexivity.
Qed.

(** X14, the second server module: with the plain listener started, a
    start without ENABLE_HTTPS=true does nothing more; with it, when
    [createSecureServer] throws (as it does for unusable certificate files)
    start-up completes all the same: [httpsServer] stays null, the warning
    with the error's message and the five lines of guidance are logged
    after whatever [createSecureServer] did, and nothing exits the process
    or starts a TLS listener; and when it returns a server, that server is
    [httpsServer]. *)
Theorem alt_startup_cases (w : world) :
  w_listen_refuses w (show (ServerAlt.port w)) = None ->
  (ServerAlt.enableHttps w = false ->
   ServerAlt.startup w = ([Listen Plain (show (ServerAlt.port w))], inr None)) /\
  (ServerAlt.enableHttps w = true ->
   (unusable w (key_path w) \/ unusable w (cert_path w) ->
    outcome (ServerAlt.startup w) = inr None) /\
   (forall e, outcome (createSecureServer w (PortNumber (ServerAlt.httpsPort w))) = inl e ->
      ServerAlt.startup w =
        (Listen Plain (show (ServerAlt.port w))
           :: trace (createSecureServer w (PortNumber (ServerAlt.httpsPort w)))
           ++ [Console ERROR (lit "Warning: Failed to start HTTPS server: " ++ emessage e);
               Console LOG (lit "Continuing with HTTP server only...");
               Console LOG (lit "To enable HTTPS, ensure SSL certificates are in place:");
               Console LOG (lit "  - Set SSL_KEY_PATH environment variable");
               Console LOG (lit "  - Set SSL_CERT_PATH environment variable");
               Console LOG (lit "  - Or place certificates in ./certs/server.key and ./certs/server.cert")],
         inr None) /\
      forall x, In x (trace (ServerAlt.startup w)) ->
                is_exit x = false /\ forall p, x <> Listen Tls p) /\
   (forall s, outcome (createSecureServer w (PortNumber (ServerAlt.httpsPort w))) = inr s ->
      outcome (ServerAlt.startup w) = inr (Some s))).
Proof.
  intros Hl.
  assert (Hrun : ServerAlt.startup w =
            (Listen Plain (show (ServerAlt.port w)) :: trace (ServerAlt.start_https w),
             outcome (ServerAlt.start_https w))).
  { unfold ServerAlt.startup, ServerAlt.listen_plain. rewrite Hl.
    destruct (ServerAlt.start_https w) as [t [e|r]]; reflexivity. }
  rewrite Hrun, alt_start_https_run. split.
  - intros ->. reflexivity.
  - intros ->.
    pose proof (createSecureServer_events w (PortNumber (ServerAlt.httpsPort w))) as Hev.
    pose proof (unusable_throws w (PortNumber (ServerAlt.httpsPort w))) as Hth.
    destruct (createSecureServer w (PortNumber (ServerAlt.httpsPort w))) as [t [e|s]];
      cbn [trace outcome fst snd] in *.
    + split; [reflexivity|]. split; [|discriminate].
      intros e' [= <-]. split; [reflexivity|].
      intros x [<- | Hx]; [split; [reflexivity | discriminate]|].
      apply in_app_or in Hx. destruct Hx as [Hx | Hx].
      * destruct (Hev x Hx) as (H1 & _ & H3). split; [exact H1 | exact (H3 e eq_refl)].
      * cbn in Hx.
        repeat (destruct Hx as [<- | Hx]; [split; [reflexivity | discriminate]|]).
        destruct Hx.
    + split; [|split; [discriminate|]].
      * intros Hu. destruct (Hth Hu) as [e He]. discriminate.
      * intros s' [= <-]. reflexivity.
Qed.

Lemma alt_startup_cases_witness :
  outcome (ServerAlt.startup no_certificates) = inr None.
Proof.
  destruct (alt_startup_cases no_certificates eq_refl) as [_ H].
  destruct (H eq_refl) as [Hu _].
  apply Hu. left. vm_compute. exact I.
Defined.

(** X15, the second server module: the two ports are never 0; PORT unset,
    or a value with no leading integer, or one that parses to 0, gives
    3000 (so PORT=0 does not ask for a free port); any other safe integer
    is taken as it is, also outside 0..65535; and an HTTPS_PORT that is a
    safe integer outside 0..65535 makes [createSecureServer] throw the
    "Invalid port number" error before it does anything. *)
Theorem alt_ports (w : world) :
  ServerAlt.port w <> 0 /\ ServerAlt.httpsPort w <> 0 /\
  (w_env w !! "PORT"%string = None \/
   (exists s, w_env w !! "PORT"%string = Some s /\
              (parseInt s = None \/ parseInt s = Some 0)) ->
   ServerAlt.port w = 3000) /\
  (forall s n, w_env w !! "PORT"%string = Some s -> parseInt s = Some n -> n <> 0 ->
               safe_integer n -> ServerAlt.port w = n) /\
  (safe_integer (ServerAlt.httpsPort w) ->
   ServerAlt.httpsPort w < 0 \/ 65535 < ServerAlt.httpsPort w ->
   createSecureServer w (PortNumber (ServerAlt.httpsPort w)) =
     ([], inl (Error (lit "Invalid port number: " ++ show (ServerAlt.httpsPort w) ++
                      lit ". Port must be between 0 and 65535.")))).
Proof.
  assert (Hnz : forall o d, d <> 0 -> or_num o d <> 0).
  { intros [z|] d Hd; cbn; [|exact Hd]. destruct (Z.eqb_spec z 0); assumption. }
  unfold ServerAlt.port, ServerAlt.httpsPort. repeat split.
  - apply Hnz. discriminate.
  - apply Hnz. discriminate.
  - intros [-> | (s & -> & H)]; [reflexivity|].
    unfold ServerAlt.env_int. destruct H as [-> | ->]; reflexivity.
  - intros s n Hs Hn Hnz' _. rewrite Hs. unfold ServerAlt.env_int. rewrite Hn.
    unfold or_num. destruct (Z.eqb_spec n 0); [contradiction | reflexivity].
  - intros Hsafe H. apply (createSecureServer_invalid w (PortNumber _)).
    cbn [port_text]. rewrite (parseInt_show _ Hsafe). exact H.
Qed.

Lemma alt_ports_witness :
  ServerAlt.port
    {| w_env := {[ "PORT"%string := lit "0" ]};
       w_fs := ∅;
       w_resolve := fun p => p;
       w_tls_refuses := fun _ _ => None;
       w_listen_refuses := fun _ => None |} = 3000.
Proof.
  destruct (alt_ports
    {| w_env := {[ "PORT"%string := lit "0" ]};
       w_fs := ∅;
       w_resolve := fun p => p;
       w_tls_refuses := fun _ _ => None;
       w_listen_refuses := fun _ => None |}) as (_ & _ & H & _).
  apply H. right. exists (lit "0"). split; [vm_compute; reflexivity|]. right. reflexivity.
Defined.

End AltStartup.

(** ** Shutdown: one exit, and what it tells *)

Section ExitOnce.

Import Https.

#[local] Arguments lit : simpl never.
#[local] Arguments Server.closed_text : simpl never.

Lemma closed_text_console name err : is_exit (Server.closed_text name err) = false.
Proof. destruct err; reflexivity. Qed.

Lemma server_run_inv (f : Server.flags) (cs : list callback) :
  match Server.run (Server.Running f) cs with
  | (t, Server.Running f') =>
      Forall (fun x => is_exit x = false) t
  | (t, Server.Exited c) =>
      exists t0, t = t0 ++ [Exit c] /\ Forall (fun x => is_exit x = false) t0 /\
        ((c = 0 /\ Server.httpClosed f || reported Plain cs = true
                /\ Server.httpsClosed f || reported Tls cs = true) \/
         (c = 1 /\ timed_out cs = true))
  end.
Proof.
  revert f. induction cs as [|c cs IH]; intros [h s]; [constructor|].
  cbn [Server.run Server.on_callback].
  destruct c as [[|] err|].
  - unfold Server.checkAndExit. cbn.
    destruct s.
    + rewrite (run_exited 0 cs). cbn [app].
      exists [Server.closed_text "HTTP" err;
              Console LOG (lit "All servers closed successfully.");
              Console LOG (lit "Graceful shutdown complete.")].
      split; [reflexivity|]. split; [repeat constructor; apply closed_text_console|].
      left. cbn. rewrite orb_true_r. auto.
    + specialize (IH {| Server.httpClosed := true; Server.httpsClosed := false |}).
      destruct (Server.run _ cs) as [t [f'|code]]; cbn [app].
      * constructor; [apply closed_text_console | exact IH].
      * destruct IH as (t0 & -> & Hne & Hc).
        exists (Server.closed_text "HTTP" err :: t0).
        split; [reflexivity|]. split; [constructor; [apply closed_text_console | exact Hne]|].
        destruct Hc as [(-> & _ & Ht) | (-> & Ht)]; [left | right]; cbn in *;
          rewrite ?orb_true_r; auto.
  - unfold Server.checkAndExit. cbn.
    destruct h; cbn.
    + rewrite (run_exited 0 cs). cbn [app].
      exists [Server.closed_text "HTTPS" err;
              Console LOG (lit "All servers closed successfully.");
              Console LOG (lit "Graceful shutdown complete.")].
      split; [reflexivity|]. split; [repeat constructor; apply closed_text_console|].
      left. cbn. rewrite orb_true_r. auto.
    + specialize (IH {| Server.httpClosed := false; Server.httpsClosed := true |}).
      destruct (Server.run _ cs) as [t [f'|code]]; cbn [app].
      * constructor; [apply closed_text_console | exact IH].
      * destruct IH as (t0 & -> & Hne & Hc).
        exists (Server.closed_text "HTTPS" err :: t0).
        split; [reflexivity|]. split; [constructor; [apply closed_text_console | exact Hne]|].
        destruct Hc as [(-> & Hp & _) | (-> & Ht)]; [left | right]; cbn in *;
          rewrite ?orb_true_r; auto.
  - rewrite (run_exited 1 cs). cbn [app].
    exists [Console ERROR (lit "Could not close connections in time, forcefully shutting down")].
    split; [reflexivity|]. split; [repeat constructor|]. right. auto.
Qed.

(** X16, server.js: in a shutdown the process exits at most once and
    nothing runs after the exit; the exit code is 0 only if every active
    listener has reported closed, and 1 only if the timer has fired. *)
Theorem server_shutdown_exits_once (httpsServer : option server) (signal : jsstring)
    (cs : list callback) :
  match Server.shutdown httpsServer signal cs with
  | (t, Server.Running _) => Forall (fun x => is_exit x = false) t
  | (t, Server.Exited c) =>
      exists t0, t = t0 ++ [Exit c] /\ Forall (fun x => is_exit x = false) t0 /\
        ((c = 0 /\ reported Plain cs = true /\
          (is_Some httpsServer -> reported Tls cs = true)) \/
         (c = 1 /\ timed_out cs = true))
  end.
Proof.
  unfold Server.shutdown, Server.gracefulShutdown.
  pose proof (server_run_inv
                {| Server.httpClosed := false;
                   Server.httpsClosed := negb (bool_decide (is_Some httpsServer)) |} cs) as H.
  set (pre := [Console LOG ([10%N] ++ signal ++ lit " received. Starting graceful shutdown...");
               Console LOG (lit "Closing HTTP server..."); Close Plain] ++
              match httpsServer with
              | Some _ => [Console LOG (lit "Closing HTTPS server..."); Close Tls]
              | None => []
              end ++ [SetTimeout Server.SHUTDOWN_TIMEOUT]).
  assert (Hpre : Forall (fun x => is_exit x = false) pre).
  { subst pre. destruct httpsServer; repeat constructor. }
  destruct (Server.run _ cs) as [t [f'|code]].
  - apply Forall_app. split; assumption.
  - destruct H as (t0 & -> & Hne & Hc). exists (pre ++ t0).
    split; [rewrite app_assoc; reflexivity|].
    split; [apply Forall_app; split; assumption|].
    destruct Hc as [(-> & Hp & Ht) | (-> & Ht)]; [left | right; auto].
    cbn in Hp, Ht. split; [reflexivity|]. split; [exact Hp|].
    intros [srv ->]. cbn in Ht. exact Ht.
Qed.

(** From a stage of the second module's shutdown: no exit before the last
    event, [close] on the TLS listener only from the first stage and after
    the plain listener reported, and the exit codes. *)
Lemma alt_run_inv (httpsServer : option server) (st : ServerAlt.stage) (cs : list callback) :
  let '(t, p) := ServerAlt.run httpsServer (ServerAlt.Running st) cs in
  (In (Close Tls) t -> st = ServerAlt.WaitingPlain /\ reported Plain cs = true) /\
  match p with
  | ServerAlt.Running _ => Forall (fun x => is_exit x = false) t
  | ServerAlt.Exited c =>
      exists t0, t = t0 ++ [Exit c] /\ Forall (fun x => is_exit x = false) t0 /\
        ((c = 0 /\ (st = ServerAlt.WaitingPlain -> reported Plain cs = true) /\
          (is_Some httpsServer -> reported Tls cs = true)) \/
         (c = 1 /\ timed_out cs = true))
  end.
Proof.
  revert st. induction cs as [|c cs IH]; intros st.
  - cbn. split; [intros []|constructor].
  - cbn [ServerAlt.run ServerAlt.on_callback].
    assert (Hexit : forall code, ServerAlt.run httpsServer (ServerAlt.Exited code) cs
                                 = ([], ServerAlt.Exited code)).
    { intros code. clear IH. induction cs as [|c' cs' IH']; [reflexivity|].
      cbn. rewrite IH'. reflexivity. }
    destruct c as [[|] err|], st.
    + destruct httpsServer as [srv|].
      * specialize (IH ServerAlt.WaitingTls).
        destruct (ServerAlt.run (Some srv) (ServerAlt.Running ServerAlt.WaitingTls) cs)
          as [t [st'|code]]; destruct IH as [Hclose Hrest]; cbn [app].
        -- split; [intros _; split; reflexivity|]. repeat constructor. exact Hrest.
        -- split; [intros _; split; reflexivity|].
           destruct Hrest as (t0 & -> & Hne & Hc).
           exists (Console LOG (lit "HTTP Server closed") :: Close Tls :: t0).
           split; [reflexivity|]. split; [repeat constructor; exact Hne|].
           destruct Hc as [(-> & _ & Ht) | (-> & Ht)]; [left | right; auto].
           split; [reflexivity|]. split; [reflexivity|].
           intros Hs. cbn. apply Ht. exact Hs.
      * rewrite Hexit. cbn [app]. split.
        -- intros [H | [H | []]]; discriminate.
        -- exists [Console LOG (lit "HTTP Server closed")].
           split; [reflexivity|]. split; [repeat constructor|].
           left. split; [reflexivity|]. split; [reflexivity|]. intros [x [=]].
    + specialize (IH ServerAlt.WaitingTls).
      destruct (ServerAlt.run httpsServer (ServerAlt.Running ServerAlt.WaitingTls) cs)
        as [t [st'|code]]; destruct IH as [Hclose Hrest]; cbn [app].
      * split; [intros H; destruct (Hclose H) as [[=] _] | exact Hrest].
      * split; [intros H; destruct (Hclose H) as [[=] _]|].
        destruct Hrest as (t0 & -> & Hne & Hc). exists t0.
        split; [reflexivity|]. split; [exact Hne|].
        destruct Hc as [(-> & _ & Ht) | (-> & Ht)]; [left | right; auto].
        split; [reflexivity|]. split; [discriminate|]. exact Ht.
    + specialize (IH ServerAlt.WaitingPlain).
      destruct (ServerAlt.run httpsServer (ServerAlt.Running ServerAlt.WaitingPlain) cs)
        as [t [st'|code]]; destruct IH as [Hclose Hrest]; cbn [app].
      * split; [intros H; destruct (Hclose H) as [_ Hp]; split; [reflexivity | exact Hp]
               | exact Hrest].
      * split; [intros H; destruct (Hclose H) as [_ Hp]; split; [reflexivity | exact Hp]|].
        destruct Hrest as (t0 & -> & Hne & Hc). exists t0.
        split; [reflexivity|]. split; [exact Hne|].
        destruct Hc as [(-> & Hp & Ht) | (-> & Ht)]; [left | right; auto].
        split; [reflexivity|]. split; [exact Hp|].
        intros Hs. reflexivity.
    + rewrite Hexit. cbn [app]. split.
      * intros [H | [H | []]]; discriminate.
      * exists [Console LOG (lit "HTTPS Server closed")].
        split; [reflexivity|]. split; [repeat constructor|].
        left. split; [reflexivity|]. split; [discriminate|]. reflexivity.
    + rewrite Hexit. cbn [app]. split.
      * intros [H | [H | []]]; discriminate.
      * exists [Console ERROR (lit "Forced shutdown after timeout")].
        split; [reflexivity|]. split; [repeat constructor|]. right. auto.
    + rewrite Hexit. cbn [app]. split.
      * intros [H | [H | []]]; discriminate.
      * exists [Console ERROR (lit "Forced shutdown after timeout")].
        split; [reflexivity|]. split; [repeat constructor|]. right. auto.
Qed.

(** X17, the second server module: in a shutdown the process exits at most
    once and nothing runs after the exit; the exit code is 0 only if every
    active listener has reported closed, and 1 only if the timer has fired;
    and [close] is called on the TLS listener only after the plain listener
    has reported closed. *)
Theorem alt_shutdown_exits_once (httpsServer : option server) (signal : jsstring)
    (cs : list callback) :
  let '(t, p) := ServerAlt.shutdown httpsServer signal cs in
  (In (Close Tls) t -> reported Plain cs = true) /\
  match p with
  | ServerAlt.Running _ => Forall (fun x => is_exit x = false) t
  | ServerAlt.Exited c =>
      exists t0, t = t0 ++ [Exit c] /\ Forall (fun x => is_exit x = false) t0 /\
        ((c = 0 /\ reported Plain cs = true /\
          (is_Some httpsServer -> reported Tls cs = true)) \/
         (c = 1 /\ timed_out cs = true))
  end.
Proof.
  unfold ServerAlt.shutdown, ServerAlt.gracefulShutdown.
  pose proof (alt_run_inv httpsServer ServerAlt.WaitingPlain cs) as H.
  destruct (ServerAlt.run httpsServer (ServerAlt.Running ServerAlt.WaitingPlain) cs)
    as [t p]. destruct H as [Hclose Hrest].
  split.
  - intros [H | [H | [H | H]]]; try discriminate. apply Hclose. exact H.
  - destruct p as [st'|code].
    + repeat constructor. exact Hrest.
    + destruct Hrest as (t0 & -> & Hne & Hc).
      eexists (_ :: _ :: _ :: t0). split; [reflexivity|].
      split; [repeat constructor; exact Hne|].
      destruct Hc as [(-> & Hp & Ht) | (-> & Ht)]; [left | right; auto].
      split; [reflexivity|]. split; [apply Hp; reflexivity | exact Ht].
Qed.

End ExitOnce.

(** ** Errors that a listener emits *)

Section ListenerErrors.

Import Https.

#[local] Arguments lit : simpl never.

(** X18: an 'error' event on server.js's plain server always ends the
    process with code 1, after console output only: directly for a failed
    [listen] with EACCES or EADDRINUSE, and through the 'uncaughtException'
    handler for every error that the listener throws again.  The listener
    that [createSecureServer] puts on the TLS server writes one error line
    and never exits.  The second module's listener exits with code 1 for
    the same two codes and throws every other error again, unchanged and
    without output. *)
Theorem listener_errors (w : world) (inspect : sys_error -> jsstring)
    (ev : Server.emitted) (portNumber : Z) :
  (exists t, Server.emit_http_error w inspect ev = (t ++ [Exit 1], inr tt) /\
             Forall (fun x => is_console x = true) t) /\
  (exists text, on_server_error portNumber (Server.failure ev) = [Console ERROR text]) /\
  ((exists text,
      ServerAlt.on_http_error w (Server.syscall ev) (Server.failure ev) =
        ([Console ERROR text; Exit 1], inr tt) /\
      Server.syscall ev = Some (lit "listen") /\
      (ecode (Server.failure ev) = Some (lit "EACCES") \/
       ecode (Server.failure ev) = Some (lit "EADDRINUSE"))) \/
   ServerAlt.on_http_error w (Server.syscall ev) (Server.failure ev) =
     ([], inl (Server.failure ev))).
Proof.
  split; [|split].
  - unfold Server.emit_http_error, Server.on_http_error, Server.uncaughtException,
      Server.error, try_catch, emit, throw, mbind, M_bind.
    repeat case_bool_decide; cbn;
      match goal with
      | |- exists t, ([?a; ?b; Exit 1], _) = _ /\ _ => exists [a; b]
      | |- exists t, ([?a; Exit 1], _) = _ /\ _ => exists [a]
      end; (split; [reflexivity | repeat constructor]).
  - unfold on_server_error. repeat case_bool_decide; eexists; reflexivity.
  - unfold ServerAlt.on_http_error, emit, throw, mbind, M_bind.
    repeat case_bool_decide; cbn; try (right; reflexivity);
      left; eexists; (split; [reflexivity|]); auto.
Qed.

End ListenerErrors.
